(** * 5-Days-5-Algorithms: the three toy ciphers and their hex encoder

    A shallow embedding of [Day1-ABitTroubling.c], [Day3-RegressionAndProgress]
    and [Day5-InsideOutAndBackwards.c].

    Conventions of the embedding.
    - A [char] object is its 8-bit pattern, a [Z] in [0, 255].  Whether plain
      [char] is signed is implementation defined; every conversion
      [(int)c] goes through [char_to_int], which takes the signedness as a
      parameter ([true] is the x86 and x86-64 ABI).
    - An [int] is a [Z]; an arithmetic result outside [INT_MIN, INT_MAX] is
      undefined behaviour and is reported as the fault [SignedOverflow].
    - A buffer is a [list Z]; [load] and [store] check the index against the
      size of the object and report [OobRead] / [OobWrite].
    - A C string argument is the list of its bytes before the terminator;
      in memory it is [str_mem s = s ++ [0]], so index [length s] still
      reads the terminating NUL and anything beyond is out of the object.
    - Loops carry a fuel argument; the entry points pass enough of it. *)

From Stdlib Require Import String Ascii ZArith List Bool Lia.
Import ListNotations.
Open Scope Z_scope.

(** ** The C fragment the programs use *)

Module C.

Inductive fault : Type :=
| OobRead (index size : Z)
| OobWrite (index size : Z)
| DivByZero
| SignedOverflow
| OutOfFuel.

Inductive result (A : Type) : Type :=
| Ok (a : A)
| Fault (f : fault).

Arguments Ok {A} a.
Arguments Fault {A} f.

Definition bind {A B : Type} (r : result A) (k : A -> result B) : result B :=
  match r with
  | Ok a => k a
  | Fault f => Fault f
  end.

Definition INT_MAX : Z := 2147483647.
Definition INT_MIN : Z := -2147483648.

Definition int_of (z : Z) : result Z :=
  if (INT_MIN <=? z) && (z <=? INT_MAX) then Ok z else Fault SignedOverflow.

Definition int_add (a b : Z) : result Z := int_of (a + b).
Definition int_sub (a b : Z) : result Z := int_of (a - b).
Definition int_mul (a b : Z) : result Z := int_of (a * b).

(** [a % b]: the remainder has the sign of the dividend. *)
Definition int_rem (a b : Z) : result Z :=
  if b =? 0 then Fault DivByZero
  else if (a =? INT_MIN) && (b =? -1) then Fault SignedOverflow
  else Ok (Z.rem a b).

(** [1 << k] on [int]. *)
Definition int_shl1 (k : Z) : result Z :=
  if (0 <=? k) && (k <=? 30) then Ok (Z.shiftl 1 k) else Fault SignedOverflow.

(** [(int)c] for a [char] holding the pattern [b]. *)
Definition char_to_int (char_signed : bool) (b : Z) : Z :=
  if char_signed && (128 <=? b) then b - 256 else b.

(** Storing an [int] (or an [unsigned]) into a [char] keeps the low 8 bits. *)
Definition int_to_char (z : Z) : Z := z mod 256.

(** [(unsigned int)z] for an [int] [z]. *)
Definition int_to_uint (z : Z) : Z := z mod 4294967296.

Definition size (m : list Z) : Z := Z.of_nat (length m).

Definition in_bounds (m : list Z) (i : Z) : bool := (0 <=? i) && (i <? size m).

Fixpoint upd (n : nat) (v : Z) (m : list Z) : list Z :=
  match m, n with
  | [], _ => []
  | _ :: t, O => v :: t
  | h :: t, S k => h :: upd k v t
  end.

(** [m[i]] inside the object. *)
Definition byte_at (m : list Z) (i : Z) : Z := nth (Z.to_nat i) m 0.

Definition load (m : list Z) (i : Z) : result Z :=
  if in_bounds m i then Ok (byte_at m i) else Fault (OobRead i (size m)).

Definition store (m : list Z) (i v : Z) : result (list Z) :=
  if in_bounds m i then Ok (upd (Z.to_nat i) v m) else Fault (OobWrite i (size m)).

(** [calloc(n, sizeof(char))]: [n] zero bytes. *)
Definition calloc (n : Z) : list Z := repeat 0 (Z.to_nat n).

(** The object a [char*] string argument points to. *)
Definition str_mem (s : list Z) : list Z := s ++ [0].

(** [strlen]: the index of the first NUL of the object. *)
Fixpoint strlen (m : list Z) : Z :=
  match m with
  | [] => 0
  | b :: r => if b =? 0 then 0 else 1 + strlen r
  end.

(** A string of the program: no byte before the terminator is NUL. *)
Definition wf_cstring (s : list Z) : Prop := Forall (fun b => 1 <= b <= 255) s.

(** [do { body } while (cond);] *)
Fixpoint do_while {S : Type} (body : S -> result S) (cond : S -> bool)
    (fuel : nat) (s : S) : result S :=
  match fuel with
  | O => Fault OutOfFuel
  | Datatypes.S f =>
      match body s with
      | Ok s' => if cond s' then do_while body cond f s' else Ok s'
      | Fault e => Fault e
      end
  end.

(** *** [sprintf(dst, "%02X", v)] *)

(** The character of one hexadecimal digit, upper case. *)
Definition hex_digit (d : Z) : Z := if d <? 10 then 48 + d else 55 + d.

Fixpoint hex_digits (fuel : nat) (u : Z) (acc : list Z) : list Z :=
  match fuel with
  | O => acc
  | Datatypes.S f =>
      if u =? 0 then acc else hex_digits f (u / 16) (hex_digit (u mod 16) :: acc)
  end.

(** [%02X] takes its argument as [unsigned int] and pads with ['0'] to a
    width of at least two. *)
Definition fmt_02X (v : Z) : list Z :=
  let ds := hex_digits 8 (int_to_uint v) [] in
  repeat 48 (2 - length ds) ++ ds.

Fixpoint store_all (m : list Z) (off : Z) (bytes : list Z) : result (list Z) :=
  match bytes with
  | [] => Ok m
  | b :: r => bind (store m off b) (fun m' => store_all m' (off + 1) r)
  end.

(** The formatted digits and the terminating NUL are written at [off]. *)
Definition sprintf_02X (m : list Z) (off v : Z) : result (list Z) :=
  store_all m off (fmt_02X v ++ [0]).

(** The string a [char*] result denotes: the bytes before the first NUL. *)
Fixpoint c_str (m : list Z) : list Z :=
  match m with
  | [] => []
  | b :: r => if b =? 0 then [] else b :: c_str r
  end.

(** Literals. *)
Definition bytes_of (s : string) : list Z :=
  map (fun a => Z.of_N (N_of_ascii a)) (list_ascii_of_string s).

Definition text_of (m : list Z) : string :=
  string_of_list_ascii (map (fun b => ascii_of_N (Z.to_N b)) m).

(** What [printf("%s", r)] shows for the result of a run. *)
Definition printed (r : result (list Z)) : option string :=
  match r with
  | Ok m => Some (text_of (c_str m))
  | Fault _ => None
  end.

End C.

Import C.

Notation "x <- c1 ;; c2" := (bind c1 (fun x => c2))
  (at level 61, c1 at next level, right associativity).

(** ** The hex encoder shared by the three programs

    The loop of [charToHex]; [retval] is the [calloc]ed result buffer. *)

Module Hex.
Section Hex.
Variable char_signed : bool.

Fixpoint fill (fuel : nat) (ciphertext : list Z) (len i : Z) (retval : list Z)
    : result (list Z) :=
  if i <? len then
    match fuel with
    | O => Fault OutOfFuel
    | S f =>
        c <- load ciphertext i ;;
        off <- int_mul 2 i ;;
        retval' <- sprintf_02X retval off (char_to_int char_signed c) ;;
        i' <- int_add i 1 ;;
        fill f ciphertext len i' retval'
    end
  else Ok retval.

Definition encode (ciphertext : list Z) (len : Z) : result (list Z) :=
  n <- int_mul 2 len ;;
  n1 <- int_add n 1 ;;
  fill (Z.to_nat len) ciphertext len 0 (calloc n1).

End Hex.
End Hex.

(** ** Day 3: periodic increment and decrement *)

Module Day3.
Section Day3.
Variable char_signed : bool.

Definition charToHex (ciphertext : list Z) (len : Z) : result (list Z) :=
  Hex.encode char_signed ciphertext len.

Record state : Type := mkState {
  ciphertext : list Z;
  index : Z
}.

Definition body (p q : Z) (plaintext : list Z) (s : state) : result state :=
  plaintext_char <- load (str_mem plaintext) (index s) ;;
  pq <- int_add p q ;;
  r <- int_rem (index s) pq ;;
  p1 <- int_sub p 1 ;;
  v <- (if r >? p1
        then int_sub (char_to_int char_signed plaintext_char) 1
        else int_add (char_to_int char_signed plaintext_char) 1) ;;
  ct <- store (ciphertext s) (index s) (int_to_char v) ;;
  index' <- int_add (index s) 1 ;;
  Ok (mkState ct index').

Definition cond (plaintext : list Z) (s : state) : bool :=
  index s <? strlen (str_mem plaintext).

(** The byte buffer [crypt] hands to [charToHex]. *)
Definition crypt_bytes (p q : Z) (plaintext : list Z) : result (list Z) :=
  let buf := calloc (strlen (str_mem plaintext)) in
  s <- do_while (body p q plaintext) (cond plaintext)
         (S (length plaintext)) (mkState buf 0) ;;
  Ok (ciphertext s).

Definition crypt (p q : Z) (plaintext : list Z) : result (list Z) :=
  ct <- crypt_bytes p q plaintext ;;
  charToHex ct (strlen (str_mem plaintext)).

End Day3.
End Day3.

(** ** Day 1: bit-mask XOR

    The two diagnostic [printf] calls of the loop body do not touch the
    buffers and are left out.  [key_reads] is a ghost field: the index of
    every read [key[...]], in program order. *)

Module Day1.
Section Day1.
Variable char_signed : bool.

Definition charToHex (ciphertext : list Z) (len : Z) : result (list Z) :=
  Hex.encode char_signed ciphertext len.

Record state : Type := mkState {
  ciphertext : list Z;
  k_char : Z;
  k_index : Z;
  k_bit_index : Z;
  t_index : Z;
  key_reads : list Z
}.

Definition body (key plaintext : list Z) (s : state) : result state :=
  bit <- int_shl1 (k_bit_index s) ;;
  w <- (if negb (Z.land bit (char_to_int char_signed (k_char s)) =? 0)
        then
          pc <- load (str_mem plaintext) (t_index s) ;;
          kc <- load (str_mem key) (k_index s) ;;
          ct <- store (ciphertext s) (t_index s)
                  (int_to_char (Z.lxor (char_to_int char_signed pc)
                                       (char_to_int char_signed kc))) ;;
          Ok (ct, key_reads s ++ [k_index s])
        else
          pc <- load (str_mem plaintext) (t_index s) ;;
          ct <- store (ciphertext s) (t_index s) pc ;;
          Ok (ct, key_reads s)) ;;
  t' <- int_add (t_index s) 1 ;;
  kb <- int_add (k_bit_index s) 1 ;;
  adv <- (if kb =? 7
          then ki <- int_add (k_index s) 1 ;; Ok (0, ki)
          else Ok (kb, k_index s)) ;;
  let ki' := if snd adv =? strlen (str_mem key) then 0 else snd adv in
  kc' <- load (str_mem key) ki' ;;
  Ok (mkState (fst w) kc' ki' (fst adv) t' (snd w ++ [ki'])).

Definition cond (plaintext : list Z) (s : state) : bool :=
  t_index s <? strlen (str_mem plaintext).

Definition init (key plaintext : list Z) : result state :=
  let buf := calloc (strlen (str_mem plaintext)) in
  kc <- load (str_mem key) 0 ;;
  _ <- load (str_mem plaintext) 0 ;;
  Ok (mkState buf kc 0 0 0 [0]).

(** The loop of [crypt]: the final state, with the byte buffer that goes to
    [charToHex] and the log of key reads. *)
Definition crypt_run (key plaintext : list Z) : result state :=
  s0 <- init key plaintext ;;
  do_while (body key plaintext) (cond plaintext) (S (length plaintext)) s0.

Definition crypt_bytes (key plaintext : list Z) : result (list Z) :=
  s <- crypt_run key plaintext ;; Ok (ciphertext s).

Definition crypt (key plaintext : list Z) : result (list Z) :=
  ct <- crypt_bytes key plaintext ;;
  charToHex ct (strlen (str_mem plaintext)).

End Day1.
End Day1.

(** ** Day 5: XOR with skip, output reversed

    [phases] and [key_reads] are ghost fields: the branch taken at each
    position, and the index of every read [key[...]].  The array [keys]
    is allocated and never used. *)

Module Day5.

Inductive phase : Type := Flip | Skip.

Section Day5.
Variable char_signed : bool.

(** The two objects [rev] touches. *)
Record rev_mem : Type := mkRev {
  input : list Z;
  retval : list Z
}.

Fixpoint rev_loop (fuel : nat) (len i : Z) (m : rev_mem) : result rev_mem :=
  match int_sub len 1 with
  | Fault e => Fault e
  | Ok bound =>
      if i <? bound then
        match fuel with
        | O => Fault OutOfFuel
        | S f =>
            j0 <- int_sub len 2 ;;
            j <- int_sub j0 i ;;
            v <- load (input m) j ;;
            r <- store (retval m) i v ;;
            i' <- int_add i 1 ;;
            rev_loop f len i' (mkRev (input m) r)
        end
      else Ok m
  end.

Definition rev (input : list Z) (len : Z) : result rev_mem :=
  rev_loop (Z.to_nat len) len 0 (mkRev input (calloc len)).

Definition charToHex (ciphertext : list Z) (len : Z) : result (list Z) :=
  hex <- Hex.encode char_signed ciphertext len ;;
  n <- int_mul 2 len ;;
  n1 <- int_add n 1 ;;
  m <- rev hex n1 ;;
  Ok (retval m).

Record state : Type := mkState {
  ciphertext : list Z;
  char_index : Z;
  repeat_index : Z;
  skip_index : Z;
  key_index : Z;
  skip : bool;
  phases : list phase;
  key_reads : list Z
}.

Definition body (key : list Z) (n : Z) (plaintext : list Z) (s : state)
    : result state :=
  s1 <- (if skip s
         then
           si <- int_add (skip_index s) 1 ;;
           let sk := si <? n in
           let si' := if negb sk then 0 else si in
           pc <- load (str_mem plaintext) (char_index s) ;;
           ct <- store (ciphertext s) (char_index s) pc ;;
           Ok (mkState ct (char_index s) (repeat_index s) si' (key_index s) sk
                 (phases s ++ [Skip]) (key_reads s))
         else
           pc <- load (str_mem plaintext) (char_index s) ;;
           ct <- store (ciphertext s) (char_index s)
                   (int_to_char
                      (Z.lxor (int_to_uint (char_to_int char_signed pc)) 127)) ;;
           ri <- int_add (repeat_index s) 1 ;;
           kc <- load (str_mem key) (key_index s) ;;
           d <- int_sub (char_to_int char_signed kc) 48 ;;
           let sk := ri <? d in
           adv <- (if sk
                   then
                     ki <- int_add (key_index s) 1 ;;
                     Ok (0, if ki >? strlen (str_mem key) then 0 else ki)
                   else Ok (ri, key_index s)) ;;
           Ok (mkState ct (char_index s) (fst adv) (skip_index s) (snd adv) sk
                 (phases s ++ [Flip]) (key_reads s ++ [key_index s]))) ;;
  ci <- int_add (char_index s1) 1 ;;
  Ok (mkState (ciphertext s1) ci (repeat_index s1) (skip_index s1)
        (key_index s1) (skip s1) (phases s1) (key_reads s1)).

Definition cond (plaintext : list Z) (s : state) : bool :=
  char_index s <? strlen (str_mem plaintext).

Definition init (plaintext : list Z) : state :=
  mkState (calloc (strlen (str_mem plaintext))) 0 0 0 0 false [] [].

(** The loop of [crypt]: the final state. *)
Definition crypt_run (key : list Z) (n : Z) (plaintext : list Z) : result state :=
  do_while (body key n plaintext) (cond plaintext) (S (length plaintext))
    (init plaintext).

Definition crypt_bytes (key : list Z) (n : Z) (plaintext : list Z)
    : result (list Z) :=
  s <- crypt_run key n plaintext ;; Ok (ciphertext s).

Definition crypt (key : list Z) (n : Z) (plaintext : list Z) : result (list Z) :=
  ct <- crypt_bytes key n plaintext ;;
  charToHex ct (strlen (str_mem plaintext)).

End Day5.
End Day5.

(** * Specifications and loop invariants *)

(** ** The hex encoder *)

(** The encoding the contract describes: two digits per byte, high nibble
    first. *)
Definition hex_pair (b : Z) : list Z := [hex_digit (b / 16); hex_digit (b mod 16)].

Definition hex_string (bytes : list Z) : list Z := flat_map hex_pair bytes.

(** The bytes [(int)c] leaves alone: all of them when [char] is unsigned,
    the 7-bit ones when it is signed. *)
Definition hex_ok (char_signed : bool) (b : Z) : Prop :=
  0 <= b <= (if char_signed then 127 else 255).

(** ** Day 3 *)

(** The byte the specification of Variant B puts at position [i]. *)
Definition day3_byte (p q : Z) (plaintext : list Z) (i : Z) : Z :=
  if p <=? i mod (p + q)
  then (byte_at plaintext i - 1) mod 256
  else (byte_at plaintext i + 1) mod 256.

Definition day3_pre (p q : Z) (plaintext : list Z) (s : Day3.state) : Prop :=
  0 <= Day3.index s < size plaintext /\
  size (Day3.ciphertext s) = size plaintext /\
  forall i, 0 <= i < Day3.index s ->
    byte_at (Day3.ciphertext s) i = day3_byte p q plaintext i.

Definition day3_post (p q : Z) (plaintext : list Z) (s : Day3.state) : Prop :=
  0 < Day3.index s <= size plaintext /\
  size (Day3.ciphertext s) = size plaintext /\
  forall i, 0 <= i < Day3.index s ->
    byte_at (Day3.ciphertext s) i = day3_byte p q plaintext i.

(** ** Day 1 *)

(** The key byte position [t] works with, and the byte the specification
    of Variant A puts there. *)
Definition day1_key_index (key : list Z) (t : Z) : Z := (t / 7) mod size key.

Definition day1_byte (key plaintext : list Z) (t : Z) : Z :=
  let k := byte_at key (day1_key_index key t) in
  if Z.testbit k (t mod 7) then Z.lxor (byte_at plaintext t) k else byte_at plaintext t.

Definition day1_inv (key plaintext : list Z) (s : Day1.state) : Prop :=
  0 <= Day1.t_index s <= size plaintext /\
  Day1.k_bit_index s = Day1.t_index s mod 7 /\
  Day1.k_index s = day1_key_index key (Day1.t_index s) /\
  Day1.k_char s = byte_at key (Day1.k_index s) /\
  size (Day1.ciphertext s) = size plaintext /\
  (forall i, 0 <= i < Day1.t_index s ->
     byte_at (Day1.ciphertext s) i = day1_byte key plaintext i) /\
  Forall (fun r => 0 <= r < size key) (Day1.key_reads s) /\
  Day1.t_index s < size (Day1.key_reads s).

Definition day1_pre (key plaintext : list Z) (s : Day1.state) : Prop :=
  day1_inv key plaintext s /\ Day1.t_index s < size plaintext.

Definition day1_post (key plaintext : list Z) (s : Day1.state) : Prop :=
  day1_inv key plaintext s /\ 0 < Day1.t_index s.

(** ** Day 5 *)

(** How an output byte relates to the input byte, by the phase that
    produced it. *)
Definition day5_rel (ph : option Day5.phase) (o p : Z) : Prop :=
  match ph with
  | Some Day5.Flip => Z.lxor o 127 = p
  | Some Day5.Skip => o = p
  | None => False
  end.

Definition day5_inv (key plaintext : list Z) (s : Day5.state) : Prop :=
  0 <= Day5.char_index s <= size plaintext /\
  size (Day5.ciphertext s) = size plaintext /\
  0 <= Day5.repeat_index s <= Day5.char_index s /\
  0 <= Day5.skip_index s <= Day5.char_index s /\
  0 <= Day5.key_index s <= size key /\
  Day5.key_index s <= Day5.char_index s /\
  Z.of_nat (length (Day5.phases s)) = Day5.char_index s /\
  (forall i, 0 <= i < Day5.char_index s ->
     day5_rel (nth_error (Day5.phases s) (Z.to_nat i))
       (byte_at (Day5.ciphertext s) i) (byte_at plaintext i)) /\
  Forall (fun r => 0 <= r <= size key) (Day5.key_reads s).

Definition day5_pre (key plaintext : list Z) (s : Day5.state) : Prop :=
  day5_inv key plaintext s /\ Day5.char_index s < size plaintext.

Definition day5_post (key plaintext : list Z) (s : Day5.state) : Prop :=
  day5_inv key plaintext s /\ 0 < Day5.char_index s.

(** ** The schedule of Day 5 in closed form *)

(** The key byte [b] ends the flip phase after a single byte: the test
    [repeat_index < (int)b - 48] with [repeat_index = 1]. *)
Definition day5_advances (char_signed : bool) (b : Z) : bool :=
  1 <? char_to_int char_signed b - 48.

(** The number of leading key bytes that do. *)
Fixpoint day5_stop (char_signed : bool) (key : list Z) : Z :=
  match key with
  | [] => 0
  | b :: r => if day5_advances char_signed b then 1 + day5_stop char_signed r else 0
  end.

(** One flipped byte and the skipped bytes after it. *)
Definition day5_block (n : Z) : Z := 1 + Z.max n 1.

Definition day5_schedule (char_signed : bool) (key : list Z) (n i : Z) : Day5.phase :=
  if (i <? day5_stop char_signed key * day5_block n)
     && negb (i mod day5_block n =? 0)
  then Day5.Skip else Day5.Flip.

Definition day5_byte (char_signed : bool) (key : list Z) (n : Z)
    (plaintext : list Z) (i : Z) : Z :=
  match day5_schedule char_signed key n i with
  | Day5.Flip => Z.lxor (byte_at plaintext i) 127
  | Day5.Skip => byte_at plaintext i
  end.

(** The control state at the head of the loop body, by position. *)
Definition day5_ctrl (char_signed : bool) (key : list Z) (n : Z) (s : Day5.state)
    : Prop :=
  let B := day5_block n in
  let T := day5_stop char_signed key * B in
  let c := Day5.char_index s in
  (c < T ->
     Day5.skip s = negb (c mod B =? 0) /\
     Day5.repeat_index s = 0 /\
     Day5.skip_index s = (if c mod B =? 0 then 0 else c mod B - 1) /\
     Day5.key_index s = (if c mod B =? 0 then c / B else c / B + 1)) /\
  (T <= c ->
     Day5.skip s = false /\
     Day5.skip_index s = 0 /\
     Day5.key_index s = day5_stop char_signed key /\
     Day5.repeat_index s = c - T) /\
  (forall i, 0 <= i < c ->
     nth_error (Day5.phases s) (Z.to_nat i)
     = Some (day5_schedule char_signed key n i)).

(** ** Day 3 for every period the loop accepts *)

(** Parameters the body evaluates without a fault: [p - 1] and [p + q] are
    [int]s and the period [p + q] is not zero. *)
Definition day3_params (p q : Z) : Prop :=
  INT_MIN < p <= INT_MAX /\ INT_MIN <= q <= INT_MAX /\
  INT_MIN <= p + q <= INT_MAX /\ p + q <> 0.

(** The byte at position [i], by the test the code makes: C's [%] is
    [Z.rem]. *)
Definition day3_byte_c (p q : Z) (plaintext : list Z) (i : Z) : Z :=
  if Z.rem i (p + q) >? p - 1
  then (byte_at plaintext i - 1) mod 256
  else (byte_at plaintext i + 1) mod 256.

Definition day3_inv_c (p q : Z) (plaintext : list Z) (s : Day3.state) : Prop :=
  0 <= Day3.index s <= size plaintext /\
  size (Day3.ciphertext s) = size plaintext /\
  forall i, 0 <= i < Day3.index s ->
    byte_at (Day3.ciphertext s) i = day3_byte_c p q plaintext i.

(** ** Bytes that stay printable as two digits after Day 3's step *)

Definition day3_ok (char_signed : bool) (b : Z) : Prop :=
  1 <= b <= (if char_signed then 126 else 255).

(** ** The order of the key reads of Day 5 *)

(** No element of the list is followed, anywhere later, by a smaller one. *)
Definition ordered (l : list Z) : Prop :=
  forall (i j : nat) (a b : Z),
    (i < j)%nat -> nth_error l i = Some a -> nth_error l j = Some b -> a <= b.

(** The indices read so far never decrease, and none is beyond the current
    key index; the loop starts in the flip phase, and from the first
    position on the key has been read. *)
Definition day5_reads_inv (s : Day5.state) : Prop :=
  ordered (Day5.key_reads s) /\
  Forall (fun r => r <= Day5.key_index s) (Day5.key_reads s) /\
  (Day5.char_index s = 0 -> Day5.skip s = false) /\
  (0 < Day5.char_index s -> Day5.key_reads s <> []).

(** * Properties *)

(** ** Facts about the C fragment *)

Lemma int_of_ok (z : Z) : INT_MIN <= z <= INT_MAX -> int_of z = Ok z.
Proof.
  intros H. unfold int_of.
  destruct (INT_MIN <=? z) eqn:E1; destruct (z <=? INT_MAX) eqn:E2; simpl; auto; lia.
Qed.

Lemma int_add_ok (a b : Z) : INT_MIN <= a + b <= INT_MAX -> int_add a b = Ok (a + b).
Proof. apply int_of_ok. Qed.

Lemma int_sub_ok (a b : Z) : INT_MIN <= a - b <= INT_MAX -> int_sub a b = Ok (a - b).
Proof. apply int_of_ok. Qed.

Lemma int_mul_ok (a b : Z) : INT_MIN <= a * b <= INT_MAX -> int_mul a b = Ok (a * b).
Proof. apply int_of_ok. Qed.

Lemma int_rem_ok (a b : Z) : 0 <= a -> 0 < b -> int_rem a b = Ok (a mod b).
Proof.
  intros Ha Hb. unfold int_rem.
  destruct (b =? 0) eqn:E; [lia|].
  replace (a =? INT_MIN) with false by (unfold INT_MIN; lia). simpl.
  now rewrite Z.rem_mod_nonneg by lia.
Qed.

Lemma in_bounds_true (m : list Z) (i : Z) : 0 <= i < size m -> in_bounds m i = true.
Proof. unfold in_bounds. intros H. apply andb_true_intro. split; lia. Qed.

Lemma in_bounds_false (m : list Z) (i : Z) : ~ 0 <= i < size m -> in_bounds m i = false.
Proof.
  unfold in_bounds. intros H.
  destruct (0 <=? i) eqn:E1; destruct (i <? size m) eqn:E2; simpl; auto; lia.
Qed.

Lemma load_ok (m : list Z) (i : Z) : 0 <= i < size m -> load m i = Ok (byte_at m i).
Proof. intros H. unfold load. now rewrite in_bounds_true. Qed.

Lemma store_ok (m : list Z) (i v : Z) :
  0 <= i < size m -> store m i v = Ok (upd (Z.to_nat i) v m).
Proof. intros H. unfold store. now rewrite in_bounds_true. Qed.

Lemma store_oob (m : list Z) (i v : Z) :
  ~ 0 <= i < size m -> store m i v = Fault (OobWrite i (size m)).
Proof. intros H. unfold store. now rewrite in_bounds_false. Qed.

Lemma length_upd (n : nat) (v : Z) (m : list Z) : length (upd n v m) = length m.
Proof.
  revert n. induction m as [|h t IH]; intros [|n]; simpl; auto.
Qed.

Lemma size_upd (n : nat) (v : Z) (m : list Z) : size (upd n v m) = size m.
Proof. unfold size. now rewrite length_upd. Qed.

Lemma nth_upd_same (n : nat) (v : Z) (m : list Z) :
  (n < length m)%nat -> nth n (upd n v m) 0 = v.
Proof.
  revert n. induction m as [|h t IH]; intros [|n] H; simpl in *; try lia; auto.
  apply IH. lia.
Qed.

Lemma nth_upd_other (n k : nat) (v : Z) (m : list Z) :
  n <> k -> nth k (upd n v m) 0 = nth k m 0.
Proof.
  revert n k. induction m as [|h t IH]; intros [|n] [|k] H; simpl; auto; try lia.
Qed.

Lemma byte_at_upd_same (m : list Z) (i v : Z) :
  0 <= i < size m -> byte_at (upd (Z.to_nat i) v m) i = v.
Proof. unfold byte_at, size. intros H. apply nth_upd_same. lia. Qed.

Lemma byte_at_upd_other (m : list Z) (i j v : Z) :
  0 <= i -> 0 <= j -> i <> j -> byte_at (upd (Z.to_nat i) v m) j = byte_at m j.
Proof. unfold byte_at. intros Hi Hj H. apply nth_upd_other. lia. Qed.

Lemma size_calloc (n : Z) : 0 <= n -> size (calloc n) = n.
Proof. intros H. unfold size, calloc. rewrite repeat_length. lia. Qed.

Lemma size_str_mem (s : list Z) : size (str_mem s) = size s + 1.
Proof. unfold size, str_mem. rewrite length_app. simpl. lia. Qed.

Lemma size_app1 (l : list Z) (x : Z) : size (l ++ [x]) = size l + 1.
Proof. unfold size. rewrite length_app. simpl. lia. Qed.

Lemma size_nonneg (m : list Z) : 0 <= size m.
Proof. unfold size. lia. Qed.

Lemma byte_at_str_mem (s : list Z) (i : Z) :
  0 <= i < size s -> byte_at (str_mem s) i = byte_at s i.
Proof.
  unfold byte_at, str_mem, size. intros H. apply app_nth1. lia.
Qed.

Lemma byte_at_str_mem_end (s : list Z) : byte_at (str_mem s) (size s) = 0.
Proof.
  unfold byte_at, str_mem, size. rewrite Nat2Z.id.
  rewrite app_nth2 by lia. now rewrite Nat.sub_diag.
Qed.

Lemma strlen_str_mem (s : list Z) : wf_cstring s -> strlen (str_mem s) = size s.
Proof.
  unfold wf_cstring, size, str_mem.
  induction 1 as [|b r Hb _ IH]; cbn [app strlen length]; auto.
  destruct (b =? 0) eqn:E; [lia|].
  rewrite IH, Nat2Z.inj_succ. lia.
Qed.

Lemma wf_byte_at (s : list Z) (i : Z) :
  wf_cstring s -> 0 <= i < size s -> 1 <= byte_at s i <= 255.
Proof.
  unfold wf_cstring, byte_at, size. intros H Hi.
  rewrite Forall_forall in H. apply H. apply nth_In. lia.
Qed.

(** The rule for [do ... while]: [I] holds at the head of the body, [J]
    after it, and [m] decreases whenever the loop goes round again. *)
Section DoWhile.
Context {S : Type} (body : S -> result S) (cond : S -> bool).
Variables (I J : S -> Prop) (m : S -> nat).
Hypothesis step : forall s, I s ->
  exists s', body s = Ok s' /\ J s' /\ (cond s' = true -> I s' /\ (m s' < m s)%nat).

Lemma do_while_rule (fuel : nat) (s : S) :
  I s -> (m s < fuel)%nat ->
  exists s', do_while body cond fuel s = Ok s' /\ J s' /\ cond s' = false.
Proof.
  revert s. induction fuel as [|f IH]; intros s Hs Hm; [lia|].
  destruct (step s Hs) as (s1 & Hb & HJ & Hc). simpl. rewrite Hb.
  destruct (cond s1) eqn:Ec.
  - destruct (Hc eq_refl) as [HI Hlt]. apply IH; [assumption | lia].
  - exists s1. auto.
Qed.
End DoWhile.

(** [char_to_int] only changes a byte by a multiple of 256. *)
Lemma char_to_int_range (sg : bool) (b : Z) :
  0 <= b <= 255 -> -128 <= char_to_int sg b <= 255.
Proof.
  intros H. unfold char_to_int.
  destruct sg; simpl; [destruct (128 <=? b) eqn:E|]; lia.
Qed.

Lemma char_to_int_mod (sg : bool) (b : Z) :
  0 <= b <= 255 -> char_to_int sg b mod 256 = b.
Proof.
  intros H. unfold char_to_int.
  destruct sg; simpl; [destruct (128 <=? b) eqn:E|].
  - replace (b - 256) with (b + (-1) * 256) by lia.
    rewrite Z.mod_add by lia. apply Z.mod_small. lia.
  - apply Z.mod_small. lia.
  - apply Z.mod_small. lia.
Qed.

Lemma char_to_int_shift (sg : bool) (b d : Z) :
  0 <= b <= 255 -> int_to_char (char_to_int sg b + d) = (b + d) mod 256.
Proof.
  intros H. unfold int_to_char.
  rewrite <- Z.add_mod_idemp_l by lia.
  now rewrite char_to_int_mod by assumption.
Qed.

(** ** Day 3 *)

Section Day3_facts.
Variable char_signed : bool.
Variables p q : Z.
Variable plaintext : list Z.
Hypothesis p_pos : 0 < p.
Hypothesis q_pos : 0 < q.
Hypothesis pq_int : p + q <= INT_MAX.
Hypothesis pt_wf : wf_cstring plaintext.
Hypothesis pt_int : size plaintext <= INT_MAX.

Lemma day3_step (s : Day3.state) :
  day3_pre p q plaintext s ->
  exists s', Day3.body char_signed p q plaintext s = Ok s' /\
    day3_post p q plaintext s' /\
    (Day3.cond plaintext s' = true ->
     day3_pre p q plaintext s' /\
     (Z.to_nat (size plaintext - Day3.index s') <
      Z.to_nat (size plaintext - Day3.index s))%nat).
Proof.
  intros (Hi & Hsz & Hpre). destruct s as [ct ix]. simpl in *.
  pose proof (wf_byte_at plaintext ix pt_wf Hi) as Hb.
  pose proof (char_to_int_range char_signed (byte_at plaintext ix) ltac:(lia)) as Hc.
  unfold Day3.body, Day3.cond. simpl.
  rewrite load_ok by (rewrite size_str_mem; lia). simpl.
  rewrite byte_at_str_mem by lia.
  rewrite int_add_ok by (unfold INT_MIN, INT_MAX in *; lia). simpl.
  rewrite int_rem_ok by lia. simpl.
  rewrite int_sub_ok by (unfold INT_MIN, INT_MAX in *; lia). simpl.
  set (v := if ix mod (p + q) >? p - 1
            then int_sub (char_to_int char_signed (byte_at plaintext ix)) 1
            else int_add (char_to_int char_signed (byte_at plaintext ix)) 1).
  assert (Hv : exists z, v = Ok z /\ int_to_char z = day3_byte p q plaintext ix).
  { unfold v, day3_byte.
    destruct (ix mod (p + q) >? p - 1) eqn:E1;
      destruct (p <=? ix mod (p + q)) eqn:E2; try lia.
    - rewrite int_sub_ok by (unfold INT_MIN, INT_MAX; lia).
      eexists; split; [reflexivity|].
      apply (char_to_int_shift char_signed _ (-1)). lia.
    - rewrite int_add_ok by (unfold INT_MIN, INT_MAX; lia).
      eexists; split; [reflexivity|].
      apply (char_to_int_shift char_signed _ 1). lia. }
  destruct Hv as (z & -> & Hz). simpl.
  rewrite store_ok by lia. simpl.
  rewrite int_add_ok by (unfold INT_MIN, INT_MAX in *; lia). simpl.
  eexists; split; [reflexivity|]. simpl.
  assert (Hpost : forall i, 0 <= i < ix + 1 ->
            byte_at (upd (Z.to_nat ix) (int_to_char z) ct) i = day3_byte p q plaintext i).
  { intros i Hi'. destruct (Z.eq_dec i ix) as [->|Hne].
    - rewrite byte_at_upd_same by lia. exact Hz.
    - rewrite byte_at_upd_other by lia. apply Hpre. lia. }
  unfold day3_post, day3_pre. simpl. rewrite size_upd.
  split; [repeat split; auto; lia|].
  rewrite strlen_str_mem by assumption. intros Hlt.
  repeat split; auto; lia.
Qed.

Lemma day3_run :
  0 < size plaintext ->
  exists out, Day3.crypt_bytes char_signed p q plaintext = Ok out /\
    size out = size plaintext /\
    forall i, 0 <= i < size plaintext -> byte_at out i = day3_byte p q plaintext i.
Proof.
  intros Hne. unfold Day3.crypt_bytes.
  destruct (do_while_rule (Day3.body char_signed p q plaintext) (Day3.cond plaintext)
              (day3_pre p q plaintext) (day3_post p q plaintext)
              (fun s => Z.to_nat (size plaintext - Day3.index s))
              day3_step (S (length plaintext))
              (Day3.mkState (calloc (strlen (str_mem plaintext))) 0))
    as (s & Hrun & (Hi & Hsz & Hall) & Hc).
  - unfold day3_pre. simpl. rewrite strlen_str_mem by assumption.
    rewrite size_calloc by apply size_nonneg. repeat split; auto; lia.
  - simpl. unfold size. lia.
  - rewrite Hrun. simpl. exists (Day3.ciphertext s). repeat split; auto.
    intros i Hi'. apply Hall. unfold Day3.cond in Hc.
    rewrite strlen_str_mem in Hc by assumption. lia.
Qed.

End Day3_facts.

(** ** Bits of a [char] *)

Lemma testbit_char_to_int (sg : bool) (b k : Z) :
  0 <= b <= 255 -> 0 <= k < 8 ->
  Z.testbit (char_to_int sg b) k = Z.testbit b k.
Proof.
  intros Hb Hk.
  rewrite <- (Z.mod_pow2_bits_low (char_to_int sg b) 8 k) by lia.
  change (2 ^ 8) with 256. now rewrite char_to_int_mod.
Qed.

(** [((1 << k) & x) != 0] tests bit [k] of [x]. *)
Lemma land_bit (k x : Z) :
  0 <= k -> (Z.land (Z.shiftl 1 k) x =? 0) = negb (Z.testbit x k).
Proof.
  intros Hk. rewrite Z.shiftl_1_l.
  destruct (Z.testbit x k) eqn:E; simpl.
  - apply Z.eqb_neq. intros H0.
    assert (Hb : Z.testbit (Z.land (2 ^ k) x) k = true).
    { rewrite Z.land_spec, Z.pow2_bits_true, E by lia. reflexivity. }
    rewrite H0, Z.bits_0 in Hb. discriminate.
  - apply Z.eqb_eq. apply Z.bits_inj'. intros n Hn.
    rewrite Z.land_spec, Z.bits_0, Z.pow2_bits_eqb by lia.
    destruct (k =? n) eqn:Ekn; simpl; auto.
    apply Z.eqb_eq in Ekn. subst n. exact E.
Qed.

Lemma lxor_mod_pow2 (k x y : Z) :
  0 <= k -> Z.lxor x y mod 2 ^ k = Z.lxor (x mod 2 ^ k) (y mod 2 ^ k).
Proof.
  intros Hk. apply Z.bits_inj'. intros n Hn.
  destruct (Z.lt_ge_cases n k) as [Hlt|Hge].
  - rewrite Z.lxor_spec, !Z.mod_pow2_bits_low by lia. now rewrite Z.lxor_spec.
  - rewrite Z.lxor_spec, !Z.mod_pow2_bits_high by lia. reflexivity.
Qed.

Lemma lxor_mod_256 (x y : Z) :
  Z.lxor x y mod 256 = Z.lxor (x mod 256) (y mod 256).
Proof. apply (lxor_mod_pow2 8). lia. Qed.

Lemma lxor_7bit_range (a b : Z) :
  0 <= a <= 127 -> 0 <= b <= 127 -> 0 <= Z.lxor a b <= 127.
Proof.
  intros Ha Hb.
  rewrite <- (Z.mod_small a (2 ^ 7)), <- (Z.mod_small b (2 ^ 7)) by lia.
  rewrite <- lxor_mod_pow2 by lia.
  pose proof (Z.mod_pos_bound (Z.lxor a b) (2 ^ 7)). lia.
Qed.

Lemma xor_chars (sg : bool) (a b : Z) :
  0 <= a <= 255 -> 0 <= b <= 255 ->
  int_to_char (Z.lxor (char_to_int sg a) (char_to_int sg b)) = Z.lxor a b.
Proof.
  intros Ha Hb. unfold int_to_char.
  now rewrite lxor_mod_256, !char_to_int_mod.
Qed.

Lemma lxor_byte_range (a b : Z) :
  0 <= a <= 255 -> 0 <= b <= 255 -> 0 <= Z.lxor a b <= 255.
Proof.
  intros Ha Hb.
  rewrite <- (Z.mod_small a 256), <- (Z.mod_small b 256) by lia.
  rewrite <- lxor_mod_256.
  pose proof (Z.mod_pos_bound (Z.lxor a b) 256). lia.
Qed.

(** ** Stepping a quotient and a remainder *)

Lemma succ_mod (a n : Z) :
  0 <= a -> 0 < n ->
  (a + 1) mod n = if a mod n + 1 =? n then 0 else a mod n + 1.
Proof.
  intros Ha Hn. pose proof (Z.mod_pos_bound a n Hn) as Hr.
  pose proof (Z.div_mod a n ltac:(lia)) as Hd.
  destruct (a mod n + 1 =? n) eqn:E.
  - symmetry. apply (Z.mod_unique (a + 1) n (a / n + 1) 0); lia.
  - symmetry. apply (Z.mod_unique (a + 1) n (a / n) (a mod n + 1)); lia.
Qed.

Lemma succ_div (a n : Z) :
  0 <= a -> 0 < n ->
  (a + 1) / n = if a mod n + 1 =? n then a / n + 1 else a / n.
Proof.
  intros Ha Hn. pose proof (Z.mod_pos_bound a n Hn) as Hr.
  pose proof (Z.div_mod a n ltac:(lia)) as Hd.
  destruct (a mod n + 1 =? n) eqn:E.
  - symmetry. apply (Z.div_unique (a + 1) n (a / n + 1) 0); lia.
  - symmetry. apply (Z.div_unique (a + 1) n (a / n) (a mod n + 1)); lia.
Qed.

(** ** Day 1 *)

Section Day1_facts.
Variable char_signed : bool.
Variables key plaintext : list Z.
Hypothesis key_wf : wf_cstring key.
Hypothesis pt_wf : wf_cstring plaintext.
Hypothesis key_ne : 0 < size key.
Hypothesis key_int : size key <= INT_MAX.
Hypothesis pt_int : size plaintext <= INT_MAX.

Lemma day1_key_index_range (t : Z) : 0 <= day1_key_index key t < size key.
Proof. unfold day1_key_index. apply Z.mod_pos_bound. exact key_ne. Qed.

Lemma day1_step (s : Day1.state) :
  day1_pre key plaintext s ->
  exists s', Day1.body char_signed key plaintext s = Ok s' /\
    day1_post key plaintext s' /\
    (Day1.cond plaintext s' = true ->
     day1_pre key plaintext s' /\
     (Z.to_nat (size plaintext - Day1.t_index s') <
      Z.to_nat (size plaintext - Day1.t_index s))%nat).
Proof.
  intros ((Ht & Hkb & Hki & Hkc & Hsz & Hout & Hrd & Hn) & Hlt).
  destruct s as [ct kc ki kb t rd]. simpl in *.
  pose proof (day1_key_index_range t) as Hkr. rewrite <- Hki in Hkr.
  pose proof (Z.mod_pos_bound t 7 ltac:(lia)) as Hkb7. rewrite <- Hkb in Hkb7.
  pose proof (wf_byte_at plaintext t pt_wf ltac:(lia)) as Hpb.
  pose proof (wf_byte_at key ki key_wf Hkr) as Hkbyte.
  unfold Day1.body, Day1.cond. simpl.
  unfold int_shl1.
  replace ((0 <=? kb) && (kb <=? 30)) with true
    by (symmetry; apply andb_true_intro; split; lia).
  simpl. rewrite land_bit by lia.
  rewrite Hkc, testbit_char_to_int, Bool.negb_involutive by lia.
  rewrite !load_ok by (rewrite size_str_mem; lia).
  rewrite !byte_at_str_mem by lia. simpl.
  rewrite xor_chars by lia.
  set (w := if Z.testbit (byte_at key ki) kb then _ else _).
  assert (Hw : exists ct' rd', w = Ok (ct', rd') /\
             size ct' = size plaintext /\
             (forall i, 0 <= i < t + 1 -> byte_at ct' i = day1_byte key plaintext i) /\
             Forall (fun r => 0 <= r < size key) rd' /\ t < size rd').
  { unfold w.
    assert (Hbyte : day1_byte key plaintext t =
              if Z.testbit (byte_at key ki) kb
              then Z.lxor (byte_at plaintext t) (byte_at key ki)
              else byte_at plaintext t).
    { unfold day1_byte. now rewrite <- Hki, <- Hkb. }
    destruct (Z.testbit (byte_at key ki) kb);
      rewrite store_ok by lia; simpl; do 2 eexists;
      (split; [reflexivity|]); rewrite size_upd;
      (split; [assumption|]); (split; [|split]).
    - intros i Hi. destruct (Z.eq_dec i t) as [->|Hne].
      + rewrite byte_at_upd_same by lia. now rewrite Hbyte.
      + rewrite byte_at_upd_other by lia. apply Hout. lia.
    - apply Forall_app. split; [assumption|]. constructor; auto.
    - rewrite size_app1. lia.
    - intros i Hi. destruct (Z.eq_dec i t) as [->|Hne].
      + rewrite byte_at_upd_same by lia. now rewrite Hbyte.
      + rewrite byte_at_upd_other by lia. apply Hout. lia.
    - assumption.
    - assumption. }
  destruct Hw as (ct' & rd' & -> & Hsz' & Hout' & Hrd' & Hn'). simpl.
  rewrite !int_add_ok by (unfold INT_MIN, INT_MAX in *; lia). simpl.
  rewrite (strlen_str_mem key key_wf).
  set (adv := if kb + 1 =? 7 then _ else _).
  assert (Hadv : exists kb' ki1, adv = Ok (kb', ki1) /\
            kb' = (t + 1) mod 7 /\
            (if ki1 =? size key then 0 else ki1) = day1_key_index key (t + 1)).
  { unfold adv, day1_key_index.
    rewrite (succ_mod t 7), (succ_div t 7) by lia. rewrite <- Hkb.
    destruct (kb + 1 =? 7) eqn:E.
    - do 2 eexists. split; [reflexivity|]. split; [reflexivity|].
      rewrite (succ_mod (t / 7) (size key)) by (try apply Z.div_pos; lia).
      unfold day1_key_index in Hki. now rewrite <- Hki.
    - do 2 eexists. split; [reflexivity|]. split; [reflexivity|].
      unfold day1_key_index in Hki. rewrite <- Hki.
      destruct (ki =? size key) eqn:E2; [lia|reflexivity]. }
  destruct Hadv as (kb' & ki1 & -> & Hkb' & Hki'). simpl.
  pose proof (day1_key_index_range (t + 1)) as Hkr'. rewrite <- Hki' in Hkr'.
  rewrite load_ok by (rewrite size_str_mem; lia).
  rewrite byte_at_str_mem by lia. simpl.
  eexists. split; [reflexivity|].
  assert (Hinv : (day1_inv key plaintext)
            (Day1.mkState ct'
               (byte_at key (if ki1 =? size key then 0 else ki1))
               (if ki1 =? size key then 0 else ki1) kb' (t + 1)
               (rd' ++ [if ki1 =? size key then 0 else ki1]))).
  { unfold day1_inv. simpl. rewrite size_app1.
    repeat split; auto; try lia.
    apply Forall_app. split; [assumption|]. constructor; auto. }
  split; [split; [exact Hinv | simpl; lia]|].
  rewrite (strlen_str_mem plaintext pt_wf). simpl. intros Hc.
  split; [split; [exact Hinv | simpl; lia]|lia].
Qed.

Lemma day1_run :
  0 < size plaintext ->
  exists s, Day1.crypt_run char_signed key plaintext = Ok s /\
    size (Day1.ciphertext s) = size plaintext /\
    (forall i, 0 <= i < size plaintext ->
       byte_at (Day1.ciphertext s) i = day1_byte key plaintext i) /\
    Forall (fun r => 0 <= r < size key) (Day1.key_reads s) /\
    size plaintext < size (Day1.key_reads s).
Proof.
  intros Hne. unfold Day1.crypt_run, Day1.init.
  rewrite !load_ok by (rewrite size_str_mem; lia). cbn [bind].
  rewrite byte_at_str_mem by lia.
  destruct (do_while_rule (Day1.body char_signed key plaintext) (Day1.cond plaintext)
              (day1_pre key plaintext) (day1_post key plaintext)
              (fun s => Z.to_nat (size plaintext - Day1.t_index s))
              day1_step (S (length plaintext))
              (Day1.mkState (calloc (strlen (str_mem plaintext))) (byte_at key 0) 0 0 0 [0]))
    as (s & Hrun & ((Ht & _ & _ & _ & Hsz & Hout & Hrd & Hn) & _) & Hc).
  - unfold day1_pre, day1_inv, day1_key_index. simpl.
    rewrite strlen_str_mem by assumption.
    rewrite size_calloc by apply size_nonneg.
    repeat split; auto; try lia.
    constructor; [lia | constructor].
  - simpl. unfold size. lia.
  - rewrite Hrun. exists s. unfold Day1.cond in Hc.
    rewrite strlen_str_mem in Hc by assumption.
    assert (Day1.t_index s = size plaintext) as Heq by lia.
    rewrite Heq in *. repeat split; auto.
Qed.

End Day1_facts.

(** ** Day 5: the loop *)

Lemma uint_char_mod (sg : bool) (b : Z) :
  0 <= b <= 255 -> int_to_uint (char_to_int sg b) mod 256 = b.
Proof.
  intros H. unfold int_to_uint.
  rewrite Z.mod_mod_divide by (now exists 16777216).
  now apply char_to_int_mod.
Qed.

(** [(unsigned char)((unsigned int)c ^ 127)] flips the low seven bits. *)
Lemma flip_char (sg : bool) (b : Z) :
  0 <= b <= 255 ->
  int_to_char (Z.lxor (int_to_uint (char_to_int sg b)) 127) = Z.lxor b 127.
Proof.
  intros H. unfold int_to_char.
  rewrite lxor_mod_256, uint_char_mod by assumption. reflexivity.
Qed.

Lemma flip_flip (b : Z) : Z.lxor (Z.lxor b 127) 127 = b.
Proof. now rewrite Z.lxor_assoc, Z.lxor_nilpotent, Z.lxor_0_r. Qed.

Lemma nth_error_snoc_old {A : Type} (l : list A) (x : A) (i : Z) :
  0 <= i < Z.of_nat (length l) ->
  nth_error (l ++ [x]) (Z.to_nat i) = nth_error l (Z.to_nat i).
Proof. intros H. apply nth_error_app1. lia. Qed.

Lemma nth_error_snoc_new {A : Type} (l : list A) (x : A) :
  nth_error (l ++ [x]) (Z.to_nat (Z.of_nat (length l))) = Some x.
Proof.
  rewrite Nat2Z.id, nth_error_app2 by lia. now rewrite Nat.sub_diag.
Qed.

Section Day5_facts.
Variable char_signed : bool.
Variable key : list Z.
Variable n : Z.
Variable plaintext : list Z.
Hypothesis key_wf : wf_cstring key.
Hypothesis pt_wf : wf_cstring plaintext.
Hypothesis pt_int : size plaintext <= INT_MAX.

Lemma key_byte_range (i : Z) :
  0 <= i <= size key -> 0 <= byte_at (str_mem key) i <= 255.
Proof.
  intros H. destruct (Z.eq_dec i (size key)) as [->|Hne].
  - rewrite byte_at_str_mem_end. lia.
  - rewrite byte_at_str_mem by lia.
    pose proof (wf_byte_at key i key_wf ltac:(lia)). lia.
Qed.

Lemma day5_step (s : Day5.state) :
  day5_pre key plaintext s ->
  exists s', Day5.body char_signed key n plaintext s = Ok s' /\
    day5_post key plaintext s' /\
    (Day5.cond plaintext s' = true ->
     day5_pre key plaintext s' /\
     (Z.to_nat (size plaintext - Day5.char_index s') <
      Z.to_nat (size plaintext - Day5.char_index s))%nat).
Proof.
  intros ((Hci & Hsz & Hri & Hsi & Hki & Hkc & Hph & Hrel & Hrd) & Hlt).
  destruct s as [ct ci ri si ki sk ph rd]. simpl in *.
  pose proof (wf_byte_at plaintext ci pt_wf ltac:(lia)) as Hpb.
  pose proof (key_byte_range ki Hki) as Hkb.
  pose proof (char_to_int_range char_signed _ Hkb) as Hkv.
  assert (Hfin : forall ct' ri' si' ki' sk' ph' rd',
    day5_inv key plaintext (Day5.mkState ct' (ci + 1) ri' si' ki' sk' ph' rd') ->
    day5_post key plaintext (Day5.mkState ct' (ci + 1) ri' si' ki' sk' ph' rd') /\
    (Day5.cond plaintext (Day5.mkState ct' (ci + 1) ri' si' ki' sk' ph' rd') = true ->
     day5_pre key plaintext (Day5.mkState ct' (ci + 1) ri' si' ki' sk' ph' rd') /\
     (Z.to_nat (size plaintext - (ci + 1)) < Z.to_nat (size plaintext - ci))%nat)).
  { intros ct' ri' si' ki' sk' ph' rd' Hinv.
    unfold day5_post, day5_pre, Day5.cond. simpl.
    rewrite (strlen_str_mem plaintext pt_wf).
    split; [split; [exact Hinv | lia]|].
    intros Hc. split; [split; [exact Hinv | lia] | lia]. }
  unfold Day5.body. simpl. destruct sk.
  - (* skip phase *)
    rewrite int_add_ok by (unfold INT_MIN, INT_MAX in *; lia). simpl.
    rewrite load_ok by (rewrite size_str_mem; lia).
    rewrite byte_at_str_mem by lia. simpl.
    rewrite store_ok by lia. simpl.
    rewrite int_add_ok by (unfold INT_MIN, INT_MAX in *; lia). simpl.
    eexists. split; [reflexivity|]. apply Hfin.
    unfold day5_inv. simpl. rewrite size_upd, length_app. simpl.
    repeat split; auto; try lia.
    + destruct (si + 1 <? n); simpl; lia.
    + destruct (si + 1 <? n); simpl; lia.
    + intros i Hi. destruct (Z.eq_dec i ci) as [->|Hne].
      * rewrite <- Hph, nth_error_snoc_new. simpl.
        rewrite Hph. now rewrite byte_at_upd_same by lia.
      * rewrite nth_error_snoc_old by lia.
        rewrite byte_at_upd_other by lia. apply Hrel. lia.
  - (* flip phase *)
    rewrite load_ok by (rewrite size_str_mem; lia).
    rewrite byte_at_str_mem by lia. simpl.
    rewrite store_ok by lia. simpl.
    rewrite int_add_ok by (unfold INT_MIN, INT_MAX in *; lia). simpl.
    rewrite load_ok by (rewrite size_str_mem; lia). simpl.
    rewrite int_sub_ok by (unfold INT_MIN, INT_MAX in *; lia). simpl.
    rewrite flip_char by lia.
    rewrite (strlen_str_mem key key_wf).
    assert (Hout : forall i, 0 <= i < ci + 1 ->
              day5_rel (nth_error (ph ++ [Day5.Flip]) (Z.to_nat i))
                (byte_at (upd (Z.to_nat ci) (Z.lxor (byte_at plaintext ci) 127) ct) i)
                (byte_at plaintext i)).
    { intros i Hi. destruct (Z.eq_dec i ci) as [->|Hne].
      - rewrite <- Hph, nth_error_snoc_new. simpl.
        rewrite Hph. rewrite byte_at_upd_same by lia. apply flip_flip.
      - rewrite nth_error_snoc_old by lia.
        rewrite byte_at_upd_other by lia. apply Hrel. lia. }
    assert (Hrd' : Forall (fun r => 0 <= r <= size key) (rd ++ [ki])).
    { apply Forall_app. split; [assumption|]. constructor; auto. }
    destruct (ri + 1 <? char_to_int char_signed (byte_at (str_mem key) ki) - 48) eqn:Esk.
    + assert (Hin : ki < size key).
      { destruct (Z.eq_dec ki (size key)) as [->|Hne]; [|lia].
        rewrite byte_at_str_mem_end in Esk. unfold char_to_int in Esk.
        rewrite Bool.andb_false_r in Esk. lia. }
      rewrite int_add_ok by (unfold INT_MIN, INT_MAX in *; lia). simpl.
      replace (ki + 1 >? size key) with false by lia.
      rewrite int_add_ok by (unfold INT_MIN, INT_MAX in *; lia). simpl.
      eexists. split; [reflexivity|]. apply Hfin.
      unfold day5_inv. simpl. rewrite size_upd, length_app. simpl.
      repeat split; auto; lia.
    + simpl. rewrite int_add_ok by (unfold INT_MIN, INT_MAX in *; lia). simpl.
      eexists. split; [reflexivity|]. apply Hfin.
      unfold day5_inv. simpl. rewrite size_upd, length_app. simpl.
      repeat split; auto; lia.
Qed.

Lemma day5_run :
  0 < size plaintext ->
  exists s, Day5.crypt_run char_signed key n plaintext = Ok s /\
    day5_inv key plaintext s /\ Day5.char_index s = size plaintext.
Proof.
  intros Hne. unfold Day5.crypt_run.
  destruct (do_while_rule (Day5.body char_signed key n plaintext) (Day5.cond plaintext)
              (day5_pre key plaintext) (day5_post key plaintext)
              (fun s => Z.to_nat (size plaintext - Day5.char_index s))
              day5_step (S (length plaintext)) (Day5.init plaintext))
    as (s & Hrun & (Hinv & _) & Hc).
  - unfold day5_pre, day5_inv, Day5.init. simpl.
    rewrite strlen_str_mem by assumption.
    rewrite size_calloc by apply size_nonneg.
    pose proof (size_nonneg key).
    repeat split; auto; try lia.
  - unfold Day5.init, size. simpl. lia.
  - exists s. split; [exact Hrun|]. split; [exact Hinv|].
    unfold Day5.cond in Hc. rewrite strlen_str_mem in Hc by assumption.
    destruct Hinv as (Hci & _). lia.
Qed.

End Day5_facts.

(** ** The hex encoder *)

Lemma hex_digit_upper (d : Z) :
  0 <= d < 16 -> hex_digit d = byte_at (bytes_of "0123456789ABCDEF") d.
Proof.
  intros H. unfold hex_digit.
  assert (d = 0 \/ d = 1 \/ d = 2 \/ d = 3 \/ d = 4 \/ d = 5 \/ d = 6 \/ d = 7 \/
          d = 8 \/ d = 9 \/ d = 10 \/ d = 11 \/ d = 12 \/ d = 13 \/ d = 14 \/ d = 15)
    as Hd by lia.
  repeat (destruct Hd as [->|Hd]; [reflexivity|]). subst d. reflexivity.
Qed.

Lemma hex_digit_pos (d : Z) : 0 <= d -> 48 <= hex_digit d.
Proof. intros H. unfold hex_digit. destruct (d <? 10); lia. Qed.

Lemma char_to_int_hex_ok (sg : bool) (b : Z) : hex_ok sg b -> char_to_int sg b = b.
Proof.
  unfold hex_ok, char_to_int. intros H.
  destruct sg; simpl; [|reflexivity].
  destruct (128 <=? b) eqn:E; [lia | reflexivity].
Qed.

Lemma fmt_02X_byte (v : Z) : 0 <= v <= 255 -> fmt_02X v = hex_pair v.
Proof.
  intros H. unfold fmt_02X, int_to_uint, hex_pair.
  rewrite Z.mod_small by lia.
  cbn [hex_digits]. destruct (v =? 0) eqn:E0.
  - apply Z.eqb_eq in E0. subst v. reflexivity.
  - destruct (v / 16 =? 0) eqn:E1.
    + apply Z.eqb_eq in E1. rewrite E1.
      rewrite Z.mod_small by (Z.div_mod_to_equations; lia). reflexivity.
    + replace (v / 16 / 16 =? 0) with true
        by (symmetry; apply Z.eqb_eq; Z.div_mod_to_equations; lia).
      rewrite (Z.mod_small (v / 16)) by (Z.div_mod_to_equations; lia).
      reflexivity.
Qed.

Lemma upd_app (a : list Z) (x v : Z) (b : list Z) :
  upd (length a) v (a ++ x :: b) = a ++ v :: b.
Proof. induction a as [|h t IH]; simpl; [reflexivity | now rewrite IH]. Qed.

Lemma store_app (a : list Z) (x v : Z) (b : list Z) :
  store (a ++ x :: b) (size a) v = Ok (a ++ v :: b).
Proof.
  rewrite store_ok.
  - unfold size. now rewrite Nat2Z.id, upd_app.
  - unfold size. rewrite length_app. simpl. lia.
Qed.

Lemma store_all_app (new old a b : list Z) :
  length old = length new ->
  store_all (a ++ old ++ b) (size a) new = Ok (a ++ new ++ b).
Proof.
  revert old a. induction new as [|v new IH]; intros [|x old] a Hlen;
    simpl in Hlen; try discriminate; [reflexivity|].
  cbn [store_all app]. rewrite store_app. cbn [bind].
  replace (size a + 1) with (size (a ++ [v])) by apply size_app1.
  replace (a ++ v :: old ++ b) with ((a ++ [v]) ++ old ++ b)
    by (now rewrite <- app_assoc).
  rewrite IH by lia. now rewrite <- app_assoc.
Qed.

Lemma size_hex_string (bytes : list Z) : size (hex_string bytes) = 2 * size bytes.
Proof.
  unfold size, hex_string. induction bytes as [|b r IH]; [reflexivity|].
  cbn [flat_map hex_pair app length]. lia.
Qed.

Lemma hex_string_app (a b : list Z) : hex_string (a ++ b) = hex_string a ++ hex_string b.
Proof. apply flat_map_app. Qed.

Section Hex_facts.
Variable char_signed : bool.

(** The loop, from a state in which [done] is encoded and [rest] is to come. *)
Lemma hex_fill_ok (rest done : list Z) (fuel : nat) :
  Forall (hex_ok char_signed) rest ->
  2 * (size done + size rest) + 1 <= INT_MAX ->
  (length rest <= fuel)%nat ->
  Hex.fill char_signed fuel (done ++ rest) (size done + size rest) (size done)
    (hex_string done ++ repeat 0 (2 * length rest + 1))
  = Ok (hex_string (done ++ rest) ++ [0]).
Proof.
  revert done fuel. induction rest as [|b rest IH]; intros done fuel Hok Hint Hfuel.
  - destruct fuel; cbn [Hex.fill];
      (replace (size done <? size done + size []) with false
         by (unfold size; simpl; lia));
      now rewrite app_nil_r.
  - destruct fuel as [|fuel]; [simpl in Hfuel; lia|].
    inversion Hok as [|? ? Hb Hrest]; subst.
    pose proof (size_nonneg done) as Hd. pose proof (size_nonneg rest) as Hr.
    assert (Hsz : size (b :: rest) = size rest + 1)
      by (unfold size; cbn [length]; lia).
    cbn [Hex.fill].
    replace (size done <? size done + size (b :: rest)) with true by lia.
    rewrite load_ok by (unfold size in *; rewrite length_app; cbn [length]; lia).
    replace (byte_at (done ++ b :: rest) (size done)) with b
      by (unfold byte_at, size; rewrite Nat2Z.id, app_nth2, Nat.sub_diag by lia;
          reflexivity).
    cbn [bind].
    rewrite int_mul_ok by (unfold INT_MIN, INT_MAX in *; lia). cbn [bind].
    rewrite char_to_int_hex_ok by assumption.
    unfold sprintf_02X.
    rewrite fmt_02X_byte by (unfold hex_ok in Hb; destruct char_signed; lia).
    replace (2 * size done) with (size (hex_string done))
      by apply size_hex_string.
    replace (repeat 0 (2 * length (b :: rest) + 1))
      with ([0; 0; 0] ++ repeat 0 (2 * length rest))
      by (cbn [length]; replace (2 * S (length rest) + 1)%nat
            with (S (S (S (2 * length rest)))) by lia; reflexivity).
    rewrite (store_all_app (hex_pair b ++ [0]) [0; 0; 0]) by reflexivity.
    cbn [bind].
    rewrite int_add_ok by (unfold INT_MIN, INT_MAX in *; lia). cbn [bind].
    specialize (IH (done ++ [b]) fuel Hrest).
    rewrite size_app1, hex_string_app in IH.
    replace (size done + size (b :: rest)) with (size done + 1 + size rest) by lia.
    replace (done ++ b :: rest) with ((done ++ [b]) ++ rest)
      by (now rewrite <- app_assoc).
    replace (hex_string done ++ (hex_pair b ++ [0]) ++ repeat 0 (2 * length rest))
      with ((hex_string done ++ hex_string [b]) ++ repeat 0 (2 * length rest + 1)).
    + apply IH; [lia | simpl in Hfuel; lia].
    + unfold hex_string at 2. cbn [flat_map]. rewrite app_nil_r.
      rewrite <- !app_assoc. f_equal. f_equal.
      replace (2 * length rest + 1)%nat with (S (2 * length rest)) by lia.
      reflexivity.
Qed.

Lemma hex_encode_ok (bytes : list Z) :
  Forall (hex_ok char_signed) bytes ->
  2 * size bytes + 1 <= INT_MAX ->
  Hex.encode char_signed bytes (size bytes) = Ok (hex_string bytes ++ [0]).
Proof.
  intros Hok Hint. pose proof (size_nonneg bytes) as Hn.
  unfold Hex.encode.
  rewrite int_mul_ok by (unfold INT_MIN, INT_MAX in *; lia). cbn [bind].
  rewrite int_add_ok by (unfold INT_MIN, INT_MAX in *; lia). cbn [bind].
  pose proof (hex_fill_ok bytes [] (Z.to_nat (size bytes)) Hok) as H.
  cbn [app hex_string flat_map] in H.
  replace (size [] + size bytes) with (size bytes) in H by (unfold size; simpl; lia).
  change (size []) with 0 in H.
  unfold calloc.
  replace (Z.to_nat (2 * size bytes + 1)) with (2 * length bytes + 1)%nat
    by (unfold size; lia).
  apply H; [lia | unfold size; lia].
Qed.

End Hex_facts.

(** Reading a position of the encoding. *)
Lemma hex_string_at (bytes : list Z) (i : Z) :
  0 <= i < size bytes ->
  byte_at (hex_string bytes) (2 * i) = hex_digit (byte_at bytes i / 16) /\
  byte_at (hex_string bytes) (2 * i + 1) = hex_digit (byte_at bytes i mod 16).
Proof.
  unfold byte_at, size. revert i.
  induction bytes as [|b r IH]; intros i Hi; [simpl in Hi; lia|].
  destruct (Z.eq_dec i 0) as [->|Hne]; [split; reflexivity|].
  assert (Hr : 0 <= i - 1 < Z.of_nat (length r)) by (cbn [length] in Hi; lia).
  destruct (IH (i - 1) Hr) as [H1 H2].
  replace (Z.to_nat (2 * i)) with (S (S (Z.to_nat (2 * (i - 1))))) by lia.
  replace (Z.to_nat (2 * i + 1)) with (S (S (Z.to_nat (2 * (i - 1) + 1)))) by lia.
  replace (Z.to_nat i) with (S (Z.to_nat (i - 1))) by lia.
  cbn [hex_string flat_map hex_pair app nth]. split; assumption.
Qed.

Lemma hex_string_nonzero (bytes : list Z) :
  Forall (fun b => 0 <= b <= 255) bytes -> Forall (fun c => c <> 0) (hex_string bytes).
Proof.
  induction 1 as [|b r Hb _ IH]; [constructor|].
  cbn [hex_string flat_map hex_pair app].
  pose proof (hex_digit_pos (b / 16) ltac:(Z.div_mod_to_equations; lia)).
  pose proof (hex_digit_pos (b mod 16) ltac:(Z.div_mod_to_equations; lia)).
  constructor; [lia|]. constructor; [lia|]. exact IH.
Qed.

Lemma c_str_app_nul (l r : list Z) :
  Forall (fun c => c <> 0) l -> c_str (l ++ 0 :: r) = l.
Proof.
  induction 1 as [|c l Hc _ IH]; [reflexivity|].
  cbn [app c_str]. destruct (c =? 0) eqn:E; [lia|]. now rewrite IH.
Qed.

(** ** Day 5: [rev] and the end of [crypt] *)

(** The loop of [rev] on the object [pre ++ suf ++ [x]], once [suf] has been
    copied. *)
Lemma rev_loop_ok (pre : list Z) :
  forall (suf : list Z) (x : Z) (fuel : nat),
  size pre + size suf + 1 <= INT_MAX ->
  (length pre <= fuel)%nat ->
  Day5.rev_loop fuel (size pre + size suf + 1) (size suf)
    (Day5.mkRev (pre ++ suf ++ [x]) (rev suf ++ repeat 0 (length pre + 1)))
  = Ok (Day5.mkRev (pre ++ suf ++ [x]) (rev (pre ++ suf) ++ [0])).
Proof.
  induction pre as [|y pre IH] using rev_ind; intros suf x fuel Hint Hfuel;
    pose proof (size_nonneg suf) as Hs.
  - change (size []) with 0 in *.
    destruct fuel; cbn [Day5.rev_loop];
      rewrite int_sub_ok by (unfold INT_MIN, INT_MAX in *; lia);
      (replace (size suf <? 0 + size suf + 1 - 1) with false by lia);
      reflexivity.
  - pose proof (size_nonneg pre) as Hp.
    rewrite size_app1 in *. rewrite length_app in Hfuel. cbn [length] in Hfuel.
    destruct fuel as [|fuel]; [lia|].
    cbn [Day5.rev_loop].
    rewrite int_sub_ok by (unfold INT_MIN, INT_MAX in *; lia).
    replace (size suf <? size pre + 1 + size suf + 1 - 1) with true by lia.
    rewrite int_sub_ok by (unfold INT_MIN, INT_MAX in *; lia). cbn [bind].
    rewrite int_sub_ok by (unfold INT_MIN, INT_MAX in *; lia). cbn [bind].
    cbn [Day5.input Day5.retval].
    replace (size pre + 1 + size suf + 1 - 2 - size suf) with (size pre) by lia.
    rewrite <- app_assoc. cbn [app].
    rewrite load_ok
      by (unfold size in *; rewrite !length_app; cbn [length]; lia).
    replace (byte_at (pre ++ y :: suf ++ [x]) (size pre)) with y
      by (unfold byte_at, size; rewrite Nat2Z.id, app_nth2, Nat.sub_diag by lia;
          reflexivity).
    cbn [bind].
    replace (repeat 0 (length (pre ++ [y]) + 1))
      with (0 :: repeat 0 (length pre + 1))
      by (rewrite length_app; cbn [length];
          replace (length pre + 1 + 1)%nat with (S (length pre + 1)) by lia;
          reflexivity).
    pose proof (store_app (rev suf) 0 y (repeat 0 (length pre + 1))) as Hst.
    replace (size (rev suf)) with (size suf) in Hst
      by (unfold size; now rewrite length_rev).
    rewrite Hst. cbn [bind].
    rewrite int_add_ok by (unfold INT_MIN, INT_MAX in *; lia). cbn [bind].
    specialize (IH (y :: suf) x fuel).
    replace (size (y :: suf)) with (size suf + 1) in IH
      by (unfold size; cbn [length]; lia).
    cbn [rev app] in IH. rewrite <- !app_assoc in IH. cbn [app] in IH.
    replace (size pre + 1 + size suf + 1) with (size pre + (size suf + 1) + 1) by lia.
    replace ((pre ++ [y]) ++ suf) with (pre ++ y :: suf)
      by (now rewrite <- app_assoc).
    apply IH; lia.
Qed.

(** [rev] on an object of [len] elements: all but the last come back in
    reverse order, in front of the zero [calloc] left in the last slot. *)
Lemma rev_ok (front : list Z) (x : Z) :
  size front + 1 <= INT_MAX ->
  Day5.rev (front ++ [x]) (size front + 1)
  = Ok (Day5.mkRev (front ++ [x]) (rev front ++ [0])).
Proof.
  intros Hint. pose proof (size_nonneg front) as Hf. unfold Day5.rev, calloc.
  replace (Z.to_nat (size front + 1)) with (length front + 1)%nat
    by (unfold size; lia).
  pose proof (rev_loop_ok front [] x (length front + 1)) as H.
  change (size []) with 0 in H. cbn [rev app] in H.
  rewrite app_nil_r in H. rewrite Z.add_0_r in H.
  apply H; lia.
Qed.

Lemma day5_charToHex_ok (sg : bool) (bytes : list Z) :
  Forall (hex_ok sg) bytes ->
  2 * size bytes + 1 <= INT_MAX ->
  Day5.charToHex sg bytes (size bytes) = Ok (rev (hex_string bytes) ++ [0]).
Proof.
  intros Hok Hint. pose proof (size_nonneg bytes) as Hn.
  unfold Day5.charToHex. rewrite hex_encode_ok by assumption. cbn [bind].
  rewrite int_mul_ok by (unfold INT_MIN, INT_MAX in *; lia). cbn [bind].
  rewrite int_add_ok by (unfold INT_MIN, INT_MAX in *; lia). cbn [bind].
  rewrite <- size_hex_string.
  rewrite rev_ok by (rewrite size_hex_string; lia).
  reflexivity.
Qed.

Lemma Forall_byte_at (P : Z -> Prop) (l : list Z) :
  (forall i, 0 <= i < size l -> P (byte_at l i)) -> Forall P l.
Proof.
  intros H. apply Forall_forall. intros x Hx.
  destruct (In_nth l x 0 Hx) as (k & Hk & <-).
  specialize (H (Z.of_nat k)). unfold byte_at, size in H.
  rewrite Nat2Z.id in H. apply H. lia.
Qed.

Lemma Forall_at (P : Z -> Prop) (l : list Z) (i : Z) :
  Forall P l -> 0 <= i < size l -> P (byte_at l i).
Proof.
  intros H Hi. rewrite Forall_forall in H. apply H.
  unfold byte_at, size in *. apply nth_In. lia.
Qed.

Lemma hex_ok_flip (sg : bool) (b : Z) : hex_ok sg b -> hex_ok sg (Z.lxor b 127).
Proof.
  unfold hex_ok. destruct sg; intros H.
  - apply lxor_7bit_range; lia.
  - apply lxor_byte_range; lia.
Qed.

Lemma hex_ok_byte (sg : bool) (b : Z) : hex_ok sg b -> 0 <= b <= 255.
Proof. unfold hex_ok. destruct sg; lia. Qed.

(** ** Empty inputs *)

Lemma day1_empty_plaintext (sg : bool) (key : list Z) :
  Day1.crypt sg key [] = Fault (OobWrite 0 0).
Proof.
  unfold Day1.crypt, Day1.crypt_bytes, Day1.crypt_run, Day1.init.
  rewrite load_ok by (rewrite size_str_mem; pose proof (size_nonneg key); lia).
  change (load (str_mem []) 0) with (Ok 0).
  cbn [bind length do_while]. unfold Day1.body.
  cbn [Day1.ciphertext Day1.k_char Day1.k_index Day1.k_bit_index Day1.t_index
       Day1.key_reads].
  change (int_shl1 0) with (Ok 1). cbn [bind].
  change (load (str_mem []) 0) with (Ok 0).
  rewrite load_ok by (rewrite size_str_mem; pose proof (size_nonneg key); lia).
  destruct (negb (Z.land 1 (char_to_int sg (byte_at (str_mem key) 0)) =? 0));
    reflexivity.
Qed.

Lemma day5_empty_plaintext (sg : bool) (key : list Z) (n : Z) :
  Day5.crypt sg key n [] = Fault (OobWrite 0 0).
Proof. reflexivity. Qed.

Lemma day3_empty_plaintext (sg : bool) (p q : Z) :
  0 < p -> 0 < q -> p + q <= INT_MAX ->
  Day3.crypt sg p q [] = Fault (OobWrite 0 0).
Proof.
  intros Hp Hq Hpq.
  unfold Day3.crypt, Day3.crypt_bytes. cbn [length do_while].
  unfold Day3.body. cbn [Day3.index Day3.ciphertext].
  change (load (str_mem []) 0) with (Ok 0). cbn [bind].
  rewrite int_add_ok by (unfold INT_MIN, INT_MAX in *; lia). cbn [bind].
  rewrite int_rem_ok by lia. cbn [bind].
  rewrite int_sub_ok by (unfold INT_MIN, INT_MAX in *; lia). cbn [bind].
  change (char_to_int sg 0) with (if sg && false then 0 - 256 else 0).
  rewrite Bool.andb_false_r.
  destruct (0 mod (p + q) >? p - 1); reflexivity.
Qed.

Lemma day3_zero_period (sg : bool) (p q : Z) (plaintext : list Z) :
  p + q = 0 -> Day3.crypt sg p q plaintext = Fault DivByZero.
Proof.
  intros Hpq.
  unfold Day3.crypt, Day3.crypt_bytes. cbn [do_while].
  unfold Day3.body. cbn [Day3.index Day3.ciphertext].
  rewrite load_ok
    by (rewrite size_str_mem; pose proof (size_nonneg plaintext); lia).
  cbn [bind]. unfold int_add. rewrite Hpq. reflexivity.
Qed.

(** ** Day 1 with an empty key

    [k_index == strlen(key)] holds from the start, so the reset keeps the
    index at 0 until [k_bit_index] reaches 7; the increment then makes it 1,
    the equality test no longer fires, and [key[1]] is past the terminator. *)

Section Day1_empty_key.
Variable char_signed : bool.
Variable plaintext : list Z.
Hypothesis pt_wf : wf_cstring plaintext.
Hypothesis pt_long : 7 <= size plaintext.
Hypothesis pt_int : size plaintext <= INT_MAX.

Lemma day1_empty_key_body (ct rd : list Z) (t : Z) :
  0 <= t <= 6 -> size ct = size plaintext ->
  Day1.body char_signed [] plaintext (Day1.mkState ct 0 0 t t rd) =
  if t =? 6 then Fault (OobRead 1 1)
  else Ok (Day1.mkState (upd (Z.to_nat t) (byte_at plaintext t) ct) 0 0
             (t + 1) (t + 1) (rd ++ [0])).
Proof.
  intros Ht Hsz. unfold Day1.body.
  cbn [Day1.ciphertext Day1.k_char Day1.k_index Day1.k_bit_index Day1.t_index
       Day1.key_reads].
  unfold int_shl1.
  replace ((0 <=? t) && (t <=? 30)) with true
    by (symmetry; apply andb_true_intro; split; lia).
  cbn [bind].
  change (char_to_int char_signed 0) with (if char_signed && false then 0 - 256 else 0).
  rewrite Bool.andb_false_r, Z.land_0_r. cbn [negb Z.eqb].
  rewrite load_ok by (rewrite size_str_mem; lia).
  rewrite byte_at_str_mem by lia. cbn [bind].
  rewrite store_ok by lia. cbn [bind fst snd].
  rewrite !int_add_ok by (unfold INT_MIN, INT_MAX in *; lia). cbn [bind].
  destruct (t =? 6) eqn:E6.
  - apply Z.eqb_eq in E6. subst t. reflexivity.
  - replace (t + 1 =? 7) with false by lia. reflexivity.
Qed.

Lemma day1_empty_key_loop (k : nat) :
  forall (ct rd : list Z) (t : Z) (fuel : nat),
  t = 6 - Z.of_nat k -> 0 <= t -> size ct = size plaintext ->
  (k < fuel)%nat ->
  do_while (Day1.body char_signed [] plaintext) (Day1.cond plaintext) fuel
    (Day1.mkState ct 0 0 t t rd) = Fault (OobRead 1 1).
Proof.
  induction k as [|k IH]; intros ct rd t fuel Ht H0 Hsz Hfuel;
    (destruct fuel as [|fuel]; [lia|]); cbn [do_while];
    rewrite day1_empty_key_body by (try assumption; lia).
  - replace (t =? 6) with true by lia. reflexivity.
  - replace (t =? 6) with false by lia.
    unfold Day1.cond at 1. cbn [Day1.t_index].
    rewrite (strlen_str_mem plaintext pt_wf).
    replace (t + 1 <? size plaintext) with true by lia.
    apply IH; try lia. now rewrite size_upd.
Qed.

Lemma day1_empty_key : Day1.crypt char_signed [] plaintext = Fault (OobRead 1 1).
Proof.
  unfold Day1.crypt, Day1.crypt_bytes, Day1.crypt_run, Day1.init.
  change (load (str_mem []) 0) with (Ok 0).
  rewrite load_ok by (rewrite size_str_mem; lia). cbn [bind].
  rewrite (day1_empty_key_loop 6);
    [reflexivity | lia | lia | | unfold size in *; lia].
  rewrite strlen_str_mem by assumption. apply size_calloc. lia.
Qed.

End Day1_empty_key.

(** * The claims *)

(** C1 (Variant A, key schedule).  For a non-empty key and a non-empty
    plaintext the loop of [crypt] ends and leaves a buffer of the plaintext's
    length in which position [t] holds the input byte XOR the whole key byte
    [key[(t / 7) mod keylen]] when bit [t mod 7] of that key byte is set, and
    the input byte itself when the bit is clear. *)
Theorem day1_crypt_key_schedule (char_signed : bool) (key plaintext : list Z) (t : Z) :
  wf_cstring key -> wf_cstring plaintext ->
  0 < size key <= INT_MAX -> size plaintext <= INT_MAX ->
  0 <= t < size plaintext ->
  exists out,
    Day1.crypt_bytes char_signed key plaintext = Ok out /\
    size out = size plaintext /\
    byte_at out t =
      (let k := byte_at key ((t / 7) mod size key) in
       if Z.testbit k (t mod 7) then Z.lxor (byte_at plaintext t) k
       else byte_at plaintext t).
Proof.
  intros Hk Hp [Hk0 Hk1] Hp1 Ht.
  destruct (day1_run char_signed key plaintext Hk Hp Hk0 Hk1 Hp1 ltac:(lia))
    as (s & Hrun & Hsz & Hout & _).
  exists (Day1.ciphertext s). unfold Day1.crypt_bytes. rewrite Hrun.
  split; [reflexivity|]. split; [exact Hsz|]. now apply Hout.
Qed.

Lemma day1_crypt_key_schedule_witness :
  exists out,
    Day1.crypt_bytes true (bytes_of "Thisismysecretkey")
      (bytes_of "Hello! Here is a secret message :)") = Ok out /\
    size out = 34 /\
    byte_at out 2 = 56.
Proof.
  apply (day1_crypt_key_schedule true (bytes_of "Thisismysecretkey")
           (bytes_of "Hello! Here is a secret message :)") 2).
  - unfold wf_cstring. vm_compute. repeat constructor; discriminate.
  - unfold wf_cstring. vm_compute. repeat constructor; discriminate.
  - vm_compute. split; [reflexivity | discriminate].
  - vm_compute. discriminate.
  - vm_compute. split; [discriminate | reflexivity].
Defined.

(** C10 (Variant A, key index invariant).  For a non-empty key and a
    non-empty plaintext the loop ends, and every index at which it read the
    key (the initial [key[0]], the XOR operand, the reload at the end of each
    iteration) satisfies [0 <= k_index < strlen(key)]; there is at least one
    such read per plaintext position. *)
Theorem day1_key_reads_in_bounds (char_signed : bool) (key plaintext : list Z) :
  wf_cstring key -> wf_cstring plaintext ->
  0 < size key <= INT_MAX -> 0 < size plaintext <= INT_MAX ->
  exists s,
    Day1.crypt_run char_signed key plaintext = Ok s /\
    Forall (fun r => 0 <= r < size key) (Day1.key_reads s) /\
    size plaintext < size (Day1.key_reads s).
Proof.
  intros Hk Hp [Hk0 Hk1] [Hp0 Hp1].
  destruct (day1_run char_signed key plaintext Hk Hp Hk0 Hk1 Hp1 Hp0)
    as (s & Hrun & _ & _ & Hrd & Hn).
  exists s. auto.
Qed.

Lemma day1_key_reads_in_bounds_witness :
  exists s,
    Day1.crypt_run true (bytes_of "ab") (bytes_of "abcdefghabcdefgh") = Ok s /\
    Forall (fun r => 0 <= r < 2) (Day1.key_reads s) /\
    16 < size (Day1.key_reads s).
Proof.
  apply (day1_key_reads_in_bounds true (bytes_of "ab") (bytes_of "abcdefghabcdefgh")).
  - unfold wf_cstring. vm_compute. repeat constructor; discriminate.
  - unfold wf_cstring. vm_compute. repeat constructor; discriminate.
  - vm_compute. split; [reflexivity | discriminate].
  - vm_compute. split; [reflexivity | discriminate].
Defined.

(** C2 (Variant B).  For positive [p] and [q] (whose sum is an [int]) and
    every index [i] of the plaintext, the loop of [crypt] ends and position
    [i] of its buffer holds the input byte minus 1 when [i mod (p + q) >= p]
    and the input byte plus 1 otherwise, both modulo 256. *)
Theorem day3_crypt_increment_decrement
    (char_signed : bool) (p q : Z) (plaintext : list Z) (i : Z) :
  0 < p -> 0 < q -> p + q <= INT_MAX ->
  wf_cstring plaintext -> size plaintext <= INT_MAX ->
  0 <= i < size plaintext ->
  exists out,
    Day3.crypt_bytes char_signed p q plaintext = Ok out /\
    size out = size plaintext /\
    byte_at out i =
      (if p <=? i mod (p + q)
       then (byte_at plaintext i - 1) mod 256
       else (byte_at plaintext i + 1) mod 256).
Proof.
  intros Hp Hq Hpq Hwf Hint Hi.
  destruct (day3_run char_signed p q plaintext Hp Hq Hpq Hwf Hint ltac:(lia))
    as (out & Hrun & Hsz & Hout).
  exists out. split; [exact Hrun|]. split; [exact Hsz|]. now apply Hout.
Qed.

Lemma day3_crypt_increment_decrement_witness :
  exists out,
    Day3.crypt_bytes true 2 1 (bytes_of "Hello, this a secret message :)") = Ok out /\
    size out = 31 /\
    byte_at out 2 = 107.
Proof.
  apply (day3_crypt_increment_decrement true 2 1
           (bytes_of "Hello, this a secret message :)") 2).
  - lia.
  - lia.
  - vm_compute. discriminate.
  - unfold wf_cstring. vm_compute. repeat constructor; discriminate.
  - vm_compute. discriminate.
  - vm_compute. split; [discriminate | reflexivity].
Defined.

(** C8 (Variant C, per-byte relation).  For every key and [n] and every
    non-empty plaintext the loop of [crypt] ends with one phase per position;
    a byte written in the flip phase satisfies [output XOR 0x7F = input], a
    byte written in the skip phase equals the input, and so every output
    byte is the input byte or its XOR with 0x7F. *)
Theorem day5_crypt_byte_relation
    (char_signed : bool) (key : list Z) (n : Z) (plaintext : list Z) :
  wf_cstring key -> wf_cstring plaintext ->
  0 < size plaintext <= INT_MAX ->
  exists s,
    Day5.crypt_run char_signed key n plaintext = Ok s /\
    Day5.crypt_bytes char_signed key n plaintext = Ok (Day5.ciphertext s) /\
    size (Day5.ciphertext s) = size plaintext /\
    length (Day5.phases s) = length plaintext /\
    forall i, 0 <= i < size plaintext ->
      let o := byte_at (Day5.ciphertext s) i in
      let p := byte_at plaintext i in
      (nth_error (Day5.phases s) (Z.to_nat i) = Some Day5.Flip -> Z.lxor o 127 = p) /\
      (nth_error (Day5.phases s) (Z.to_nat i) = Some Day5.Skip -> o = p) /\
      (o = p \/ o = Z.lxor p 127).
Proof.
  intros Hk Hp [Hp0 Hp1].
  destruct (day5_run char_signed key n plaintext Hk Hp Hp1 Hp0)
    as (s & Hrun & (_ & Hsz & _ & _ & _ & _ & Hph & Hrel & _) & Hci).
  exists s. split; [exact Hrun|].
  split; [unfold Day5.crypt_bytes; now rewrite Hrun|].
  split; [exact Hsz|].
  split; [unfold size in *; lia|].
  intros i Hi. specialize (Hrel i ltac:(lia)). cbv zeta.
  destruct (nth_error (Day5.phases s) (Z.to_nat i)) as [[|]|];
    cbn [day5_rel] in Hrel; [| |contradiction].
  - split; [auto|]. split; [discriminate|]. right.
    rewrite <- Hrel. now rewrite flip_flip.
  - split; [discriminate|]. split; [auto|]. now left.
Qed.

Lemma day5_crypt_byte_relation_witness :
  exists s,
    Day5.crypt_run true (bytes_of "8675309") 1
      (bytes_of "Hello, this a secret message :)") = Ok s /\
    Day5.crypt_bytes true (bytes_of "8675309") 1
      (bytes_of "Hello, this a secret message :)") = Ok (Day5.ciphertext s) /\
    size (Day5.ciphertext s) = 31 /\
    length (Day5.phases s) = 31%nat /\
    forall i, 0 <= i < 31 ->
      let o := byte_at (Day5.ciphertext s) i in
      let p := byte_at (bytes_of "Hello, this a secret message :)") i in
      (nth_error (Day5.phases s) (Z.to_nat i) = Some Day5.Flip -> Z.lxor o 127 = p) /\
      (nth_error (Day5.phases s) (Z.to_nat i) = Some Day5.Skip -> o = p) /\
      (o = p \/ o = Z.lxor p 127).
Proof.
  apply (day5_crypt_byte_relation true (bytes_of "8675309") 1
           (bytes_of "Hello, this a secret message :)")).
  - unfold wf_cstring. vm_compute. repeat constructor; discriminate.
  - unfold wf_cstring. vm_compute. repeat constructor; discriminate.
  - vm_compute. split; [reflexivity | discriminate].
Defined.

(** The key index of Variant C never passes the terminator: the byte read
    at [key_index == strlen(key)] is NUL, [0 - 48] is below every repeat
    count, and the index is not advanced again. *)
Lemma day5_key_index_bound
    (char_signed : bool) (key : list Z) (n : Z) (plaintext : list Z) :
  wf_cstring key -> wf_cstring plaintext ->
  0 < size plaintext <= INT_MAX ->
  exists s,
    Day5.crypt_run char_signed key n plaintext = Ok s /\
    0 <= Day5.key_index s <= size key /\
    Forall (fun r => 0 <= r <= size key) (Day5.key_reads s).
Proof.
  intros Hk Hp [Hp0 Hp1].
  destruct (day5_run char_signed key n plaintext Hk Hp Hp1 Hp0)
    as (s & Hrun & (_ & _ & _ & _ & Hki & _ & _ & _ & Hrd) & _).
  exists s. auto.
Qed.

(** C3 (Variant C, phase changes), evaluated on the inputs of [main].  The
    first key digit is 8, yet the skip phase is entered after a single
    flipped byte: the test [repeat_index < key[key_index] - 48] enters the
    skip phase while the counter is below the digit.  At the digit 0 (key
    index 5) the counter never is below it, and every later byte is
    flipped. *)
Theorem day5_skip_entered_below_digit (char_signed : bool) :
  exists s,
    Day5.crypt_run char_signed (bytes_of "8675309") 1
      (bytes_of "Hello, this a secret message :)") = Ok s /\
    byte_at (bytes_of "8675309") 0 - 48 = 8 /\
    Day5.phases s =
      [Day5.Flip; Day5.Skip; Day5.Flip; Day5.Skip; Day5.Flip; Day5.Skip;
       Day5.Flip; Day5.Skip; Day5.Flip; Day5.Skip] ++ repeat Day5.Flip 21 /\
    Day5.key_reads s = [0; 1; 2; 3; 4] ++ repeat 5 21.
Proof.
  destruct char_signed; eexists; (split; [vm_compute; reflexivity|]);
    repeat split.
Qed.

(** C4 (hex encoder) on a byte with the high bit set, where plain [char] is
    signed: [(int)c] is negative, [%02X] prints it as the eight digits of
    [FFFFFF80], and the write leaves the [2 * len + 1] bytes of the result;
    when the bytes after it give room, the byte is rendered as [FF].  Where
    [char] is unsigned the same byte gives [80]. *)
Theorem charToHex_sign_extends_high_byte :
  Day1.charToHex true [128] 1 = Fault (OobWrite 3 3) /\
  Day3.charToHex true [128] 1 = Fault (OobWrite 3 3) /\
  Day3.crypt true 2 1 [127] = Fault (OobWrite 3 3) /\
  Day1.charToHex true [128; 65; 65; 65; 65] 5 = Ok (bytes_of "FF41414141" ++ [0]) /\
  Day1.charToHex false [128] 1 = Ok (bytes_of "80" ++ [0]).
Proof. repeat split; vm_compute; reflexivity. Qed.

(** X16.  The contract of the hex encoder holds on the bytes [(int)c] leaves
    alone: the result is a string of [2 * len] characters, byte [i] gives the
    upper-case digit of its high nibble at [2 * i] and of its low nibble at
    [2 * i + 1]. *)
Lemma charToHex_contract (char_signed : bool) (bytes : list Z) :
  Forall (hex_ok char_signed) bytes ->
  2 * size bytes + 1 <= INT_MAX ->
  exists m,
    Day1.charToHex char_signed bytes (size bytes) = Ok m /\
    Day3.charToHex char_signed bytes (size bytes) = Ok m /\
    size (c_str m) = 2 * size bytes /\
    forall i, 0 <= i < size bytes ->
      byte_at (c_str m) (2 * i) =
        byte_at (bytes_of "0123456789ABCDEF") (byte_at bytes i / 16) /\
      byte_at (c_str m) (2 * i + 1) =
        byte_at (bytes_of "0123456789ABCDEF") (byte_at bytes i mod 16).
Proof.
  intros Hok Hint. exists (hex_string bytes ++ [0]).
  assert (Hb : Forall (fun b => 0 <= b <= 255) bytes).
  { eapply Forall_impl; [|exact Hok]. intros b. apply hex_ok_byte. }
  unfold Day1.charToHex, Day3.charToHex. rewrite hex_encode_ok by assumption.
  rewrite c_str_app_nul by now apply hex_string_nonzero.
  split; [reflexivity|]. split; [reflexivity|].
  split; [apply size_hex_string|].
  intros i Hi. pose proof (Forall_at _ _ i Hb Hi) as Hbi. cbv beta in Hbi.
  destruct (hex_string_at bytes i Hi) as [H1 H2]. split.
  - rewrite H1. apply hex_digit_upper. Z.div_mod_to_equations; lia.
  - rewrite H2. apply hex_digit_upper. Z.div_mod_to_equations; lia.
Qed.

(** C7 (Byte Reverser).  On an object of [L >= 1] elements, [rev] leaves
    the input as it was and returns a fresh object holding a sequence of
    [L - 1] elements, element [i] being input element [L - 2 - i] (the input
    without its last element, reversed), followed by the zero byte [calloc]
    left in the last slot. *)
Theorem day5_rev_spec (input : list Z) :
  1 <= size input <= INT_MAX ->
  exists (m : Day5.rev_mem) (out : list Z),
    Day5.rev input (size input) = Ok m /\
    Day5.input m = input /\
    Day5.retval m = out ++ [0] /\
    size out = size input - 1 /\
    (forall i, 0 <= i < size input - 1 ->
       byte_at out i = byte_at input (size input - 2 - i)) /\
    out = rev (removelast input).
Proof.
  intros [H1 H2].
  destruct (exists_last (l := input)) as (front & x & ->).
  { intros ->. unfold size in H1. simpl in H1. lia. }
  rewrite size_app1 in *.
  exists (Day5.mkRev (front ++ [x]) (rev front ++ [0])), (rev front).
  split; [now apply rev_ok|]. split; [reflexivity|]. split; [reflexivity|].
  split; [unfold size; rewrite length_rev; lia|].
  split; [|now rewrite removelast_last].
  intros i Hi. unfold byte_at, size in *.
  rewrite rev_nth by lia. rewrite app_nth1 by lia.
  f_equal. lia.
Qed.

Lemma day5_rev_spec_witness :
  exists (m : Day5.rev_mem) (out : list Z),
    Day5.rev (bytes_of "3E4A" ++ [0]) 5 = Ok m /\
    Day5.input m = bytes_of "3E4A" ++ [0] /\
    Day5.retval m = out ++ [0] /\
    size out = 4 /\
    (forall i, 0 <= i < 4 ->
       byte_at out i = byte_at (bytes_of "3E4A" ++ [0]) (3 - i)) /\
    out = bytes_of "A4E3".
Proof.
  apply (day5_rev_spec (bytes_of "3E4A" ++ [0])).
  vm_compute. split; discriminate.
Defined.

(** C5 as stated fails: for the one-byte plaintext "A" the output is the
    two characters "E3", not [2 * 1 - 2 = 0] characters. *)
Lemma day5_output_length_counterexample :
  exists m,
    Day5.crypt true (bytes_of "1") 1 (bytes_of "A") = Ok m /\
    c_str m = bytes_of "E3" /\
    size (c_str m) <> 2 * size (bytes_of "A") - 2.
Proof.
  eexists. split; [vm_compute; reflexivity|].
  split; [reflexivity | vm_compute; discriminate].
Qed.

(** C5, amended (Variant C, shape of the output).  For every non-empty
    plaintext of bytes that [(int)c] leaves alone (7-bit bytes where [char]
    is signed), [crypt] returns the hex encoding of the transformed bytes
    reversed as a string: [charToHex] passes [2 * len + 1] to [rev], so the
    element [rev] leaves out is the terminating NUL, and the result is a
    string of exactly [2 * len(P)] characters. *)
Theorem day5_crypt_output_shape
    (char_signed : bool) (key : list Z) (n : Z) (plaintext : list Z) :
  wf_cstring key -> wf_cstring plaintext ->
  Forall (hex_ok char_signed) plaintext ->
  0 < size plaintext -> 2 * size plaintext + 1 <= INT_MAX ->
  exists ct m,
    Day5.crypt_bytes char_signed key n plaintext = Ok ct /\
    Day5.crypt char_signed key n plaintext = Ok m /\
    c_str m = rev (hex_string ct) /\
    size (c_str m) = 2 * size plaintext.
Proof.
  intros Hk Hp Hok Hp0 Hint.
  destruct (day5_run char_signed key n plaintext Hk Hp
              ltac:(unfold INT_MAX in *; lia) Hp0)
    as (s & Hrun & (_ & Hsz & _ & _ & _ & _ & _ & Hrel & _) & Hci).
  assert (Hbytes : Day5.crypt_bytes char_signed key n plaintext
                   = Ok (Day5.ciphertext s))
    by (unfold Day5.crypt_bytes; now rewrite Hrun).
  assert (Hct : Forall (hex_ok char_signed) (Day5.ciphertext s)).
  { apply Forall_byte_at. intros i Hi. rewrite Hsz in Hi.
    specialize (Hrel i ltac:(lia)).
    pose proof (Forall_at _ _ i Hok Hi) as Hpi.
    destruct (nth_error (Day5.phases s) (Z.to_nat i)) as [[|]|];
      cbn [day5_rel] in Hrel; [| |contradiction].
    - rewrite <- (flip_flip (byte_at (Day5.ciphertext s) i)), Hrel.
      now apply hex_ok_flip.
    - now rewrite Hrel. }
  assert (Hb : Forall (fun b => 0 <= b <= 255) (Day5.ciphertext s)).
  { eapply Forall_impl; [|exact Hct]. intros b. apply hex_ok_byte. }
  exists (Day5.ciphertext s), (rev (hex_string (Day5.ciphertext s)) ++ [0]).
  split; [exact Hbytes|]. unfold Day5.crypt. rewrite Hbytes. cbn [bind].
  rewrite (strlen_str_mem plaintext Hp), <- Hsz.
  split; [apply day5_charToHex_ok; [exact Hct | lia]|].
  assert (Hnz : Forall (fun c => c <> 0) (rev (hex_string (Day5.ciphertext s)))).
  { apply Forall_rev. now apply hex_string_nonzero. }
  rewrite c_str_app_nul by exact Hnz.
  split; [reflexivity|].
  unfold size at 1. rewrite length_rev. apply size_hex_string.
Qed.

Lemma day5_crypt_output_shape_witness :
  exists ct m,
    Day5.crypt_bytes true (bytes_of "8675309") 1
      (bytes_of "Hello, this a secret message :)") = Ok ct /\
    Day5.crypt true (bytes_of "8675309") 1
      (bytes_of "Hello, this a secret message :)") = Ok m /\
    c_str m = rev (hex_string ct) /\
    size (c_str m) = 62.
Proof.
  apply (day5_crypt_output_shape true (bytes_of "8675309") 1
           (bytes_of "Hello, this a secret message :)")).
  - unfold wf_cstring. vm_compute. repeat constructor; discriminate.
  - unfold wf_cstring. vm_compute. repeat constructor; discriminate.
  - unfold hex_ok. vm_compute. repeat constructor; discriminate.
  - reflexivity.
  - vm_compute. discriminate.
Defined.

(** * The programs on their own inputs, and the scenarios of the
    specification *)

Example day1_main :
  printed (Day1.crypt true (bytes_of "Thisismysecretkey")
             (bytes_of "Hello! Here is a secret message :)"))
  = Some "4865386C3B21744865720D20011B4961201A650A1B1607206D160000086765493A40"%string.
Proof. vm_compute. reflexivity. Qed.

Example day1_single_bit_key :
  printed (Day1.crypt true [1] (bytes_of "A")) = Some "40"%string.
Proof. vm_compute. reflexivity. Qed.

Example day3_main :
  printed (Day3.crypt true 2 1 (bytes_of "Hello, this a secret message :)"))
  = Some "49666B6D702B2175676A741F62217266647166751F6E66727462666621392A"%string.
Proof. vm_compute. reflexivity. Qed.

Example day3_AB :
  printed (Day3.crypt true 2 1 (bytes_of "AB")) = Some "4243"%string.
Proof. vm_compute. reflexivity. Qed.

Example day5_main :
  printed (Day5.crypt true (bytes_of "8675309") 1
             (bytes_of "Hello, this a secret message :)"))
  = Some "6554F5A181E1C0C0A121F5B0A1D0C1A1C0F5E1F5C0967147F5C201C6315673"%string.
Proof. vm_compute. reflexivity. Qed.

(** * Further properties of the three programs *)

Lemma list_eq_byte_at (l l' : list Z) :
  size l = size l' ->
  (forall i, 0 <= i < size l -> byte_at l i = byte_at l' i) ->
  l = l'.
Proof.
  intros Hs H. apply (nth_ext l l' 0 0).
  - unfold size in Hs. lia.
  - intros k Hk. specialize (H (Z.of_nat k)). unfold byte_at in H.
    rewrite Nat2Z.id in H. apply H. unfold size. lia.
Qed.

Lemma lxor_lxor (a k : Z) : Z.lxor (Z.lxor a k) k = a.
Proof. now rewrite Z.lxor_assoc, Z.lxor_nilpotent, Z.lxor_0_r. Qed.

Lemma hex_ok_lxor (sg : bool) (a b : Z) :
  hex_ok sg a -> hex_ok sg b -> hex_ok sg (Z.lxor a b).
Proof.
  unfold hex_ok. destruct sg; intros Ha Hb.
  - apply lxor_7bit_range; lia.
  - apply lxor_byte_range; lia.
Qed.

(** ** Day 1 *)

(** X1.  Variant A undoes itself: the key schedule depends on the position
    only, so running the loop of [crypt] on its own output with the same key
    gives the plaintext back, as long as that output is again a C string (no
    byte was XORed to NUL). *)
Theorem day1_crypt_bytes_self_inverse
    (char_signed : bool) (key plaintext : list Z) :
  wf_cstring key -> wf_cstring plaintext ->
  0 < size key <= INT_MAX -> 0 < size plaintext <= INT_MAX ->
  exists out,
    Day1.crypt_bytes char_signed key plaintext = Ok out /\
    (wf_cstring out -> Day1.crypt_bytes char_signed key out = Ok plaintext).
Proof.
  intros Hk Hp [Hk0 Hk1] [Hp0 Hp1].
  destruct (day1_run char_signed key plaintext Hk Hp Hk0 Hk1 Hp1 Hp0)
    as (s & Hrun & Hsz & Hout & _).
  exists (Day1.ciphertext s). unfold Day1.crypt_bytes at 1. rewrite Hrun.
  split; [reflexivity|]. intros Hwf.
  destruct (day1_run char_signed key (Day1.ciphertext s) Hk Hwf Hk0 Hk1
              ltac:(lia) ltac:(lia)) as (s2 & Hrun2 & Hsz2 & Hout2 & _).
  unfold Day1.crypt_bytes. rewrite Hrun2. cbn [bind]. f_equal.
  apply list_eq_byte_at; [lia|]. intros i Hi.
  rewrite Hout2 by lia. unfold day1_byte at 1. cbv zeta.
  rewrite Hout by lia. unfold day1_byte. cbv zeta.
  destruct (Z.testbit (byte_at key (day1_key_index key i)) (i mod 7));
    [apply lxor_lxor | reflexivity].
Qed.

Lemma day1_crypt_bytes_self_inverse_witness :
  Day1.crypt_bytes true (bytes_of "key") (bytes_of "Hello") = Ok [35; 14; 108; 7; 111] /\
  Day1.crypt_bytes true (bytes_of "key") [35; 14; 108; 7; 111] = Ok (bytes_of "Hello").
Proof.
  destruct (day1_crypt_bytes_self_inverse true (bytes_of "key") (bytes_of "Hello"))
    as (out & Hout & Hback).
  - unfold wf_cstring. vm_compute. repeat constructor; discriminate.
  - unfold wf_cstring. vm_compute. repeat constructor; discriminate.
  - vm_compute. split; [reflexivity | discriminate].
  - vm_compute. split; [reflexivity | discriminate].
  - assert (E : out = [35; 14; 108; 7; 111])
      by (vm_compute in Hout; now injection Hout as <-).
    subst out. split; [reflexivity|]. apply Hback.
    unfold wf_cstring. repeat constructor; lia.
Defined.

(** X2.  Variant A end to end: on a key and a plaintext of bytes [(int)c]
    leaves alone (7-bit where [char] is signed) [crypt] returns, without a
    fault, the upper-case hex encoding of the transformed bytes, a string of
    exactly [2 * strlen(plaintext)] characters. *)
Theorem day1_crypt_hex_output (char_signed : bool) (key plaintext : list Z) :
  wf_cstring key -> wf_cstring plaintext ->
  Forall (hex_ok char_signed) key -> Forall (hex_ok char_signed) plaintext ->
  0 < size key <= INT_MAX -> 0 < size plaintext ->
  2 * size plaintext + 1 <= INT_MAX ->
  exists out m,
    Day1.crypt_bytes char_signed key plaintext = Ok out /\
    Day1.crypt char_signed key plaintext = Ok m /\
    c_str m = hex_string out /\
    size (c_str m) = 2 * size plaintext.
Proof.
  intros Hk Hp Hkok Hpok [Hk0 Hk1] Hp0 Hint.
  destruct (day1_run char_signed key plaintext Hk Hp Hk0 Hk1
              ltac:(unfold INT_MAX in *; lia) Hp0)
    as (s & Hrun & Hsz & Hout & _).
  assert (Hbytes : Day1.crypt_bytes char_signed key plaintext
                   = Ok (Day1.ciphertext s))
    by (unfold Day1.crypt_bytes; now rewrite Hrun).
  assert (Hct : Forall (hex_ok char_signed) (Day1.ciphertext s)).
  { apply Forall_byte_at. intros i Hi. rewrite Hsz in Hi.
    rewrite Hout by lia. unfold day1_byte. cbv zeta.
    pose proof (Forall_at _ _ i Hpok Hi) as Hpi.
    assert (Hki : 0 <= day1_key_index key i < size key)
      by (unfold day1_key_index; apply Z.mod_pos_bound; lia).
    pose proof (Forall_at _ _ _ Hkok Hki) as Hkb.
    destruct (Z.testbit _ _); [now apply hex_ok_lxor | assumption]. }
  assert (Hb : Forall (fun b => 0 <= b <= 255) (Day1.ciphertext s)).
  { eapply Forall_impl; [|exact Hct]. intros b. apply hex_ok_byte. }
  exists (Day1.ciphertext s), (hex_string (Day1.ciphertext s) ++ [0]).
  split; [exact Hbytes|]. unfold Day1.crypt. rewrite Hbytes. cbn [bind].
  rewrite (strlen_str_mem plaintext Hp), <- Hsz.
  split; [unfold Day1.charToHex; apply hex_encode_ok; [exact Hct | lia]|].
  rewrite c_str_app_nul by now apply hex_string_nonzero.
  split; [reflexivity | apply size_hex_string].
Qed.

Lemma day1_crypt_hex_output_witness :
  exists out m,
    Day1.crypt_bytes true (bytes_of "key") (bytes_of "Hello") = Ok out /\
    Day1.crypt true (bytes_of "key") (bytes_of "Hello") = Ok m /\
    c_str m = hex_string out /\
    size (c_str m) = 10.
Proof.
  apply (day1_crypt_hex_output true (bytes_of "key") (bytes_of "Hello")).
  - unfold wf_cstring. vm_compute. repeat constructor; discriminate.
  - unfold wf_cstring. vm_compute. repeat constructor; discriminate.
  - unfold hex_ok. vm_compute. repeat constructor; discriminate.
  - unfold hex_ok. vm_compute. repeat constructor; discriminate.
  - vm_compute. split; [reflexivity | discriminate].
  - reflexivity.
  - vm_compute. discriminate.
Defined.

(** With an empty key and a position below 6 the body takes the
    pass-through branch and keeps the key index at 0. *)
Lemma day1_nokey_body (sg : bool) (plaintext ct rd : list Z) (t : Z) :
  wf_cstring plaintext -> size plaintext <= INT_MAX ->
  0 <= t <= 5 -> t < size plaintext -> size ct = size plaintext ->
  Day1.body sg [] plaintext (Day1.mkState ct 0 0 t t rd) =
  Ok (Day1.mkState (upd (Z.to_nat t) (byte_at plaintext t) ct) 0 0
        (t + 1) (t + 1) (rd ++ [0])).
Proof.
  intros Hwf Hint Ht Hlt Hsz. unfold Day1.body.
  cbn [Day1.ciphertext Day1.k_char Day1.k_index Day1.k_bit_index Day1.t_index
       Day1.key_reads].
  unfold int_shl1.
  replace ((0 <=? t) && (t <=? 30)) with true
    by (symmetry; apply andb_true_intro; split; lia).
  cbn [bind].
  change (char_to_int sg 0) with (if sg && false then 0 - 256 else 0).
  rewrite Bool.andb_false_r, Z.land_0_r. cbn [negb Z.eqb].
  rewrite load_ok by (rewrite size_str_mem; lia).
  rewrite byte_at_str_mem by lia. cbn [bind].
  rewrite store_ok by lia. cbn [bind fst snd].
  rewrite !int_add_ok by (unfold INT_MIN, INT_MAX in *; lia). cbn [bind].
  replace (t + 1 =? 7) with false by lia. reflexivity.
Qed.

Lemma day1_nokey_loop (sg : bool) (plaintext : list Z) (k : nat) :
  wf_cstring plaintext -> size plaintext <= 6 ->
  forall (ct rd : list Z) (t : Z) (fuel : nat),
  size plaintext = t + 1 + Z.of_nat k -> 0 <= t ->
  size ct = size plaintext ->
  (forall i, 0 <= i < t -> byte_at ct i = byte_at plaintext i) ->
  (k < fuel)%nat ->
  exists s,
    do_while (Day1.body sg [] plaintext) (Day1.cond plaintext) fuel
      (Day1.mkState ct 0 0 t t rd) = Ok s /\
    Day1.ciphertext s = plaintext.
Proof.
  intros Hwf H6. induction k as [|k IH]; intros ct rd t fuel Ht H0 Hsz Hpre Hfuel;
    (destruct fuel as [|fuel]; [lia|]); cbn [do_while];
    rewrite day1_nokey_body by (try assumption; unfold INT_MAX; lia);
    unfold Day1.cond at 1; cbn [Day1.t_index];
    rewrite (strlen_str_mem plaintext Hwf).
  - replace (t + 1 <? size plaintext) with false by lia.
    eexists. split; [reflexivity|]. cbn [Day1.ciphertext].
    apply list_eq_byte_at; [now rewrite size_upd|].
    intros i Hi. rewrite size_upd in Hi.
    destruct (Z.eq_dec i t) as [->|Hne].
    + now rewrite byte_at_upd_same by lia.
    + rewrite byte_at_upd_other by lia. apply Hpre. lia.
  - replace (t + 1 <? size plaintext) with true by lia.
    apply IH; try lia; [now rewrite size_upd|].
    intros i Hi. destruct (Z.eq_dec i t) as [->|Hne].
    + now rewrite byte_at_upd_same by lia.
    + rewrite byte_at_upd_other by lia. apply Hpre. lia.
Qed.

(** X3.  Variant A with the empty key, on a plaintext of one to six bytes:
    [key[0]] is the terminator, no bit of it is set, and the bytes handed to
    [charToHex] are the plaintext unchanged.  (From seven bytes on the run
    reads [key[1]], see [day1_empty_key].) *)
Theorem day1_empty_key_short_plaintext (char_signed : bool) (plaintext : list Z) :
  wf_cstring plaintext -> 0 < size plaintext <= 6 ->
  Day1.crypt_bytes char_signed [] plaintext = Ok plaintext.
Proof.
  intros Hwf [H0 H6].
  unfold Day1.crypt_bytes, Day1.crypt_run, Day1.init.
  change (load (str_mem []) 0) with (Ok 0).
  rewrite load_ok by (rewrite size_str_mem; lia). cbn [bind].
  destruct (day1_nokey_loop char_signed plaintext (Z.to_nat (size plaintext - 1))
              Hwf H6 (calloc (strlen (str_mem plaintext))) [0] 0
              (S (length plaintext)))
    as (s & Hrun & Hct); try lia.
  - rewrite strlen_str_mem by assumption. apply size_calloc. lia.
  - unfold size in *. lia.
  - rewrite Hrun. cbn [bind]. now rewrite Hct.
Qed.

Lemma day1_empty_key_short_plaintext_witness :
  Day1.crypt_bytes true [] (bytes_of "secret") = Ok (bytes_of "secret").
Proof.
  apply (day1_empty_key_short_plaintext true (bytes_of "secret")).
  - unfold wf_cstring. vm_compute. repeat constructor; discriminate.
  - vm_compute. split; [reflexivity | discriminate].
Defined.

(** ** The hex encoder *)

Lemma charToHex_contract_witness :
  exists m,
    Day1.charToHex true (bytes_of "Hi!") 3 = Ok m /\
    Day3.charToHex true (bytes_of "Hi!") 3 = Ok m /\
    size (c_str m) = 6 /\
    forall i, 0 <= i < 3 ->
      byte_at (c_str m) (2 * i) =
        byte_at (bytes_of "0123456789ABCDEF") (byte_at (bytes_of "Hi!") i / 16) /\
      byte_at (c_str m) (2 * i + 1) =
        byte_at (bytes_of "0123456789ABCDEF") (byte_at (bytes_of "Hi!") i mod 16).
Proof.
  apply (charToHex_contract true (bytes_of "Hi!")).
  - unfold hex_ok. vm_compute. repeat constructor; discriminate.
  - vm_compute. discriminate.
Defined.

Lemma hex_digit_inj (d e : Z) :
  0 <= d < 16 -> 0 <= e < 16 -> hex_digit d = hex_digit e -> d = e.
Proof.
  unfold hex_digit. intros Hd He.
  destruct (d <? 10) eqn:E1; destruct (e <? 10) eqn:E2; lia.
Qed.

Lemma hex_string_inj (a : list Z) :
  forall b,
  Forall (fun x => 0 <= x <= 255) a -> Forall (fun x => 0 <= x <= 255) b ->
  hex_string a = hex_string b -> a = b.
Proof.
  induction a as [|x a IH]; intros [|y b] Ha Hb H; try reflexivity;
    try discriminate.
  inversion Ha as [|? ? Hx Ha']; inversion Hb as [|? ? Hy Hb']; subst.
  cbn [hex_string flat_map hex_pair app] in H.
  injection H as H1 H2 H3.
  apply hex_digit_inj in H1; [|Z.div_mod_to_equations; lia ..].
  apply hex_digit_inj in H2; [|Z.div_mod_to_equations; lia ..].
  f_equal.
  - rewrite (Z.div_mod x 16), (Z.div_mod y 16) by lia. now rewrite H1, H2.
  - now apply IH.
Qed.

(** X4.  The hex encoding loses nothing: on byte sequences [(int)c] leaves
    alone, two buffers that [charToHex] encodes to the same result are the
    same buffer. *)
Theorem charToHex_injective (char_signed : bool) (a b : list Z) :
  Forall (hex_ok char_signed) a -> Forall (hex_ok char_signed) b ->
  2 * size a + 1 <= INT_MAX -> 2 * size b + 1 <= INT_MAX ->
  Day1.charToHex char_signed a (size a) = Day1.charToHex char_signed b (size b) ->
  a = b.
Proof.
  intros Ha Hb Hia Hib. unfold Day1.charToHex.
  rewrite !hex_encode_ok by assumption. intros H.
  injection H as H. apply app_inj_tail in H. destruct H as [H _].
  apply hex_string_inj; [| |exact H].
  - eapply Forall_impl; [|exact Ha]. intros x. apply hex_ok_byte.
  - eapply Forall_impl; [|exact Hb]. intros x. apply hex_ok_byte.
Qed.

Lemma charToHex_injective_witness : bytes_of "Hi!" = [72; 105; 33].
Proof.
  apply (charToHex_injective true (bytes_of "Hi!") [72; 105; 33]).
  - unfold hex_ok. vm_compute. repeat constructor; discriminate.
  - unfold hex_ok. repeat constructor; lia.
  - vm_compute. discriminate.
  - vm_compute. discriminate.
  - reflexivity.
Defined.

(** What [%02X] prints for a sign-extended byte: six [F] and the two digits
    of the byte. *)
Lemma fmt_02X_negative (b : Z) :
  128 <= b <= 255 ->
  fmt_02X (b - 256) = [70; 70; 70; 70; 70; 70] ++ hex_pair b.
Proof.
  intros H. unfold fmt_02X, int_to_uint, hex_pair.
  replace ((b - 256) mod 4294967296) with (b + 4294967040)
    by (apply (Z.mod_unique _ _ (-1)); lia).
  cbn [hex_digits].
  replace (b + 4294967040 =? 0) with false by lia.
  replace ((b + 4294967040) / 16 =? 0) with false
    by (symmetry; apply Z.eqb_neq; Z.div_mod_to_equations; lia).
  replace ((b + 4294967040) / 16 / 16) with 16777215
    by (Z.div_mod_to_equations; lia).
  replace ((b + 4294967040) mod 16) with (b mod 16)
    by (Z.div_mod_to_equations; lia).
  replace ((b + 4294967040) / 16 mod 16) with (b / 16)
    by (Z.div_mod_to_equations; lia).
  reflexivity.
Qed.

(** Writing more bytes than the object has left faults at its end. *)
Lemma store_all_overflow (new old a : list Z) :
  (length old < length new)%nat ->
  store_all (a ++ old) (size a) new
  = Fault (OobWrite (size (a ++ old)) (size (a ++ old))).
Proof.
  revert old a. induction new as [|v new IH]; intros old a Hlen;
    [simpl in Hlen; lia|].
  destruct old as [|x old].
  - cbn [store_all]. rewrite app_nil_r.
    rewrite store_oob by lia. reflexivity.
  - cbn [store_all]. rewrite store_app. cbn [bind].
    replace (size a + 1) with (size (a ++ [v])) by apply size_app1.
    replace (a ++ v :: old) with ((a ++ [v]) ++ old)
      by (now rewrite <- app_assoc).
    rewrite IH by (simpl in Hlen; lia).
    unfold size. rewrite !length_app. cbn [length].
    replace (Z.of_nat (length a + 1 + length old))
      with (Z.of_nat (length a + S (length old))) by lia.
    reflexivity.
Qed.

Section Hex_overflow.
Variable char_signed : bool.

(** The loop over a prefix [mid] of bytes [(int)c] leaves alone. *)
Lemma hex_fill_prefix (mid : list Z) :
  forall (done more : list Z) (fuel : nat),
  Forall (hex_ok char_signed) mid ->
  2 * (size done + size mid + size more) + 1 <= INT_MAX ->
  Hex.fill char_signed (length mid + fuel) (done ++ mid ++ more)
    (size done + size mid + size more) (size done)
    (hex_string done ++ repeat 0 (2 * (length mid + length more) + 1))
  = Hex.fill char_signed fuel (done ++ mid ++ more)
      (size done + size mid + size more) (size done + size mid)
      (hex_string (done ++ mid) ++ repeat 0 (2 * length more + 1)).
Proof.
  induction mid as [|b mid IH]; intros done more fuel Hok Hint.
  - cbn [app length Nat.add]. change (size []) with 0.
    now rewrite app_nil_r, !Z.add_0_r.
  - inversion Hok as [|? ? Hb Hmid]; subst.
    pose proof (size_nonneg done) as Hd. pose proof (size_nonneg mid) as Hm.
    pose proof (size_nonneg more) as Hr.
    assert (Hsz : size (b :: mid) = size mid + 1)
      by (unfold size; cbn [length]; lia).
    rewrite Hsz in *.
    cbn [length Nat.add Hex.fill].
    replace (size done <? size done + (size mid + 1) + size more) with true by lia.
    rewrite load_ok
      by (unfold size in *; rewrite !length_app; cbn [length]; lia).
    replace (byte_at (done ++ (b :: mid) ++ more) (size done)) with b
      by (unfold byte_at, size; rewrite Nat2Z.id, app_nth2, Nat.sub_diag by lia;
          reflexivity).
    cbn [bind].
    rewrite int_mul_ok by (unfold INT_MIN, INT_MAX in *; lia). cbn [bind].
    rewrite char_to_int_hex_ok by assumption.
    unfold sprintf_02X.
    rewrite fmt_02X_byte by (unfold hex_ok in Hb; destruct char_signed; lia).
    replace (2 * size done) with (size (hex_string done))
      by apply size_hex_string.
    replace (repeat 0 (2 * S (length mid + length more) + 1))
      with ([0; 0; 0] ++ repeat 0 (2 * (length mid + length more)))
      by (replace (2 * S (length mid + length more) + 1)%nat
            with (S (S (S (2 * (length mid + length more))))) by lia;
          reflexivity).
    rewrite (store_all_app (hex_pair b ++ [0]) [0; 0; 0]) by reflexivity.
    cbn [bind].
    rewrite int_add_ok by (unfold INT_MIN, INT_MAX in *; lia). cbn [bind].
    specialize (IH (done ++ [b]) more fuel Hmid).
    rewrite size_app1, hex_string_app in IH.
    replace (done ++ (b :: mid) ++ more) with ((done ++ [b]) ++ mid ++ more)
      by (now rewrite <- app_assoc).
    replace (size done + (size mid + 1) + size more)
      with (size done + 1 + size mid + size more) by lia.
    replace (hex_string done ++ (hex_pair b ++ [0]) ++
             repeat 0 (2 * (length mid + length more)))
      with ((hex_string done ++ hex_string [b]) ++
            repeat 0 (2 * (length mid + length more) + 1)).
    + rewrite IH by lia.
      replace ((done ++ [b]) ++ mid) with (done ++ b :: mid)
        by (now rewrite <- app_assoc).
      replace (size done + 1 + size mid) with (size done + (size mid + 1)) by lia.
      reflexivity.
    + unfold hex_string at 2. cbn [flat_map]. rewrite app_nil_r.
      rewrite <- !app_assoc. f_equal. f_equal.
      replace (2 * (length mid + length more) + 1)%nat
        with (S (2 * (length mid + length more))) by lia.
      reflexivity.
Qed.

End Hex_overflow.

(** X5.  Where plain [char] is signed, a byte with the high bit set among
    the last three of the buffer makes [charToHex] write past the end of its
    [2 * len + 1] bytes: the eight digits and the NUL of the sign-extended
    value do not fit.  The bytes before it are 7-bit; the bytes after it are
    arbitrary. *)
Theorem charToHex_high_byte_overflows (front tail : list Z) (b : Z) :
  Forall (hex_ok true) front -> 128 <= b <= 255 -> (length tail <= 2)%nat ->
  2 * size (front ++ b :: tail) + 1 <= INT_MAX ->
  let bytes := front ++ b :: tail in
  let e := Fault (OobWrite (2 * size bytes + 1) (2 * size bytes + 1)) in
  Day1.charToHex true bytes (size bytes) = e /\
  Day3.charToHex true bytes (size bytes) = e /\
  Day5.charToHex true bytes (size bytes) = e.
Proof.
  intros Hok Hb Htail Hint. cbv zeta.
  pose proof (size_nonneg front) as Hf. pose proof (size_nonneg tail) as Ht.
  assert (Hsz : size (front ++ b :: tail) = size front + 1 + size tail)
    by (unfold size; rewrite length_app; cbn [length]; lia).
  assert (Hlen : length (front ++ b :: tail) = (length front + S (length tail))%nat)
    by (rewrite length_app; reflexivity).
  assert (Henc : Hex.encode true (front ++ b :: tail) (size (front ++ b :: tail))
                 = Fault (OobWrite (2 * size (front ++ b :: tail) + 1)
                            (2 * size (front ++ b :: tail) + 1))).
  { unfold Hex.encode.
    rewrite int_mul_ok by (unfold INT_MIN, INT_MAX in *; lia). cbn [bind].
    rewrite int_add_ok by (unfold INT_MIN, INT_MAX in *; lia). cbn [bind].
    unfold calloc.
    replace (Z.to_nat (size (front ++ b :: tail)))
      with (length front + S (length tail))%nat by (unfold size; lia).
    replace (Z.to_nat (2 * size (front ++ b :: tail) + 1))
      with (2 * (length front + length (b :: tail)) + 1)%nat
      by (unfold size; cbn [length]; lia).
    pose proof (hex_fill_prefix true front [] (b :: tail) (S (length tail)) Hok) as H.
    cbn [app hex_string flat_map] in H. change (size []) with 0 in H.
    replace (size (b :: tail)) with (1 + size tail) in H
      by (unfold size; cbn [length]; lia).
    rewrite !Z.add_0_l in H. rewrite Hsz.
    replace (size front + 1 + size tail) with (size front + (1 + size tail)) by lia.
    rewrite H by lia.
    cbn [Hex.fill].
    replace (size front <? size front + (1 + size tail)) with true by lia.
    rewrite load_ok
      by (unfold size in *; rewrite length_app; cbn [length]; lia).
    replace (byte_at (front ++ b :: tail) (size front)) with b
      by (unfold byte_at, size; rewrite Nat2Z.id, app_nth2, Nat.sub_diag by lia;
          reflexivity).
    cbn [bind].
    rewrite int_mul_ok by (unfold INT_MIN, INT_MAX in *; lia). cbn [bind].
    unfold char_to_int. cbn [andb].
    replace (128 <=? b) with true by lia.
    unfold sprintf_02X. rewrite fmt_02X_negative by assumption.
    replace (2 * size front) with (size (hex_string front))
      by apply size_hex_string.
    rewrite store_all_overflow.
    - cbn [bind].
      replace (size (hex_string front ++ repeat 0 (2 * length (b :: tail) + 1)))
        with (2 * (size front + (1 + size tail)) + 1); [reflexivity|].
      pose proof (size_hex_string front) as Hh.
      unfold size in *. rewrite length_app, repeat_length. cbn [length]. lia.
    - rewrite repeat_length, !length_app. cbn [length hex_pair]. lia. }
  unfold Day1.charToHex, Day3.charToHex, Day5.charToHex.
  rewrite Henc. repeat split.
Qed.

Lemma charToHex_high_byte_overflows_witness :
  Day1.charToHex true (bytes_of "ab" ++ [233; 33]) 4 = Fault (OobWrite 9 9) /\
  Day3.charToHex true (bytes_of "ab" ++ [233; 33]) 4 = Fault (OobWrite 9 9) /\
  Day5.charToHex true (bytes_of "ab" ++ [233; 33]) 4 = Fault (OobWrite 9 9).
Proof.
  apply (charToHex_high_byte_overflows (bytes_of "ab") [33] 233).
  - unfold hex_ok. vm_compute. repeat constructor; discriminate.
  - lia.
  - simpl. lia.
  - vm_compute. discriminate.
Defined.

(** ** Day 3 *)

Lemma int_rem_nonneg (a b : Z) : 0 <= a -> b <> 0 -> int_rem a b = Ok (Z.rem a b).
Proof.
  intros Ha Hb. unfold int_rem.
  replace (b =? 0) with false by lia.
  replace (a =? INT_MIN) with false by (unfold INT_MIN; lia).
  reflexivity.
Qed.

Section Day3_general.
Variable char_signed : bool.
Variables p q : Z.
Variable plaintext : list Z.
Hypothesis params : day3_params p q.
Hypothesis pt_wf : wf_cstring plaintext.
Hypothesis pt_int : size plaintext <= INT_MAX.

Lemma day3_step_c (s : Day3.state) :
  day3_inv_c p q plaintext s /\ Day3.index s < size plaintext ->
  exists s', Day3.body char_signed p q plaintext s = Ok s' /\
    (day3_inv_c p q plaintext s' /\ 0 < Day3.index s') /\
    (Day3.cond plaintext s' = true ->
     (day3_inv_c p q plaintext s' /\ Day3.index s' < size plaintext) /\
     (Z.to_nat (size plaintext - Day3.index s') <
      Z.to_nat (size plaintext - Day3.index s))%nat).
Proof.
  intros ((Hi & Hsz & Hpre) & Hlt). destruct s as [ct ix].
  cbn [Day3.index Day3.ciphertext] in *.
  destruct params as (Hp & Hq & Hpq & Hnz).
  pose proof (wf_byte_at plaintext ix pt_wf ltac:(lia)) as Hb.
  pose proof (char_to_int_range char_signed (byte_at plaintext ix) ltac:(lia)) as Hc.
  unfold Day3.body, Day3.cond. cbn [Day3.index Day3.ciphertext].
  rewrite load_ok by (rewrite size_str_mem; lia). cbn [bind].
  rewrite byte_at_str_mem by lia.
  rewrite int_add_ok by assumption. cbn [bind].
  rewrite int_rem_nonneg by lia. cbn [bind].
  rewrite int_sub_ok by (unfold INT_MIN, INT_MAX in *; lia). cbn [bind].
  set (v := if Z.rem ix (p + q) >? p - 1
            then int_sub (char_to_int char_signed (byte_at plaintext ix)) 1
            else int_add (char_to_int char_signed (byte_at plaintext ix)) 1).
  assert (Hv : exists z, v = Ok z /\ int_to_char z = day3_byte_c p q plaintext ix).
  { unfold v, day3_byte_c. destruct (Z.rem ix (p + q) >? p - 1).
    - rewrite int_sub_ok by (unfold INT_MIN, INT_MAX; lia).
      eexists; split; [reflexivity|].
      apply (char_to_int_shift char_signed _ (-1)). lia.
    - rewrite int_add_ok by (unfold INT_MIN, INT_MAX; lia).
      eexists; split; [reflexivity|].
      apply (char_to_int_shift char_signed _ 1). lia. }
  destruct Hv as (z & -> & Hz). cbn [bind].
  rewrite store_ok by lia. cbn [bind].
  rewrite int_add_ok by (unfold INT_MIN, INT_MAX in *; lia). cbn [bind].
  eexists; split; [reflexivity|].
  assert (Hinv : day3_inv_c p q plaintext
                   (Day3.mkState (upd (Z.to_nat ix) (int_to_char z) ct) (ix + 1))).
  { unfold day3_inv_c. cbn [Day3.index Day3.ciphertext]. rewrite size_upd.
    split; [lia|]. split; [assumption|].
    intros i Hi'. destruct (Z.eq_dec i ix) as [->|Hne].
    - rewrite byte_at_upd_same by lia. exact Hz.
    - rewrite byte_at_upd_other by lia. apply Hpre. lia. }
  cbn [Day3.index]. rewrite strlen_str_mem by assumption.
  split; [split; [exact Hinv | lia]|].
  intros Hc'. split; [split; [exact Hinv | lia] | lia].
Qed.

Lemma day3_run_c :
  0 < size plaintext ->
  exists out, Day3.crypt_bytes char_signed p q plaintext = Ok out /\
    size out = size plaintext /\
    forall i, 0 <= i < size plaintext -> byte_at out i = day3_byte_c p q plaintext i.
Proof.
  intros Hne. unfold Day3.crypt_bytes.
  destruct (do_while_rule (Day3.body char_signed p q plaintext) (Day3.cond plaintext)
              (fun s => day3_inv_c p q plaintext s /\ Day3.index s < size plaintext)
              (fun s => day3_inv_c p q plaintext s /\ 0 < Day3.index s)
              (fun s => Z.to_nat (size plaintext - Day3.index s))
              day3_step_c (S (length plaintext))
              (Day3.mkState (calloc (strlen (str_mem plaintext))) 0))
    as (s & Hrun & ((Hi & Hsz & Hall) & _) & Hc).
  - unfold day3_inv_c. cbn [Day3.index Day3.ciphertext].
    rewrite strlen_str_mem by assumption.
    rewrite size_calloc by apply size_nonneg. repeat split; auto; lia.
  - cbn [Day3.index]. unfold size. lia.
  - rewrite Hrun. cbn [bind]. exists (Day3.ciphertext s). repeat split; auto.
    intros i Hi'. apply Hall. unfold Day3.cond in Hc.
    rewrite strlen_str_mem in Hc by assumption. lia.
Qed.

End Day3_general.

Lemma succ_mod_256_inj (a b d : Z) :
  0 <= a <= 255 -> 0 <= b <= 255 -> (a + d) mod 256 = (b + d) mod 256 -> a = b.
Proof.
  intros Ha Hb H.
  assert (Hd : ((a + d) - (b + d)) mod 256 = 0).
  { rewrite Zminus_mod, H, Z.sub_diag. reflexivity. }
  replace (a + d - (b + d)) with (a - b) in Hd by lia.
  apply Z.mod_divide in Hd; [|lia]. destruct Hd as [k Hk]. lia.
Qed.

(** X6.  Variant B loses nothing: for every period the loop accepts, two
    non-empty plaintexts that give the same transformed bytes are equal. *)
Theorem day3_crypt_bytes_injective
    (char_signed : bool) (p q : Z) (plaintext plaintext' : list Z) :
  day3_params p q ->
  wf_cstring plaintext -> wf_cstring plaintext' ->
  0 < size plaintext <= INT_MAX -> 0 < size plaintext' <= INT_MAX ->
  Day3.crypt_bytes char_signed p q plaintext
  = Day3.crypt_bytes char_signed p q plaintext' ->
  plaintext = plaintext'.
Proof.
  intros Hpar Hw Hw' [H0 H1] [H0' H1'] Heq.
  destruct (day3_run_c char_signed p q plaintext Hpar Hw H1 H0)
    as (out & Hrun & Hsz & Hout).
  destruct (day3_run_c char_signed p q plaintext' Hpar Hw' H1' H0')
    as (out' & Hrun' & Hsz' & Hout').
  rewrite Hrun, Hrun' in Heq. injection Heq as <-.
  apply list_eq_byte_at; [lia|]. intros i Hi.
  pose proof (Hout i Hi) as E. rewrite Hout' in E by lia.
  pose proof (wf_byte_at plaintext i Hw Hi) as Hb.
  pose proof (wf_byte_at plaintext' i Hw' ltac:(lia)) as Hb'.
  unfold day3_byte_c in E.
  destruct (Z.rem i (p + q) >? p - 1); symmetry in E.
  - apply (succ_mod_256_inj _ _ (-1)); [lia | lia | exact E].
  - apply (succ_mod_256_inj _ _ 1); [lia | lia | exact E].
Qed.

Lemma day3_crypt_bytes_injective_witness : bytes_of "AB" = [65; 66].
Proof.
  apply (day3_crypt_bytes_injective true 2 1 (bytes_of "AB") [65; 66]).
  - unfold day3_params, INT_MIN, INT_MAX. lia.
  - unfold wf_cstring. vm_compute. repeat constructor; discriminate.
  - unfold wf_cstring. repeat constructor; lia.
  - vm_compute. split; [reflexivity | discriminate].
  - vm_compute. split; [reflexivity | discriminate].
  - reflexivity.
Defined.

(** X7.  Variant B with a period that is not split in two: when [p <= 0]
    (and [p + q > 0]) the test [index % (p + q) > p - 1] always holds and
    every byte is decremented; when [q <= 0] (and [p + q > 0]) it never
    holds and every byte is incremented. *)
Theorem day3_one_sided_period
    (char_signed : bool) (p q : Z) (plaintext : list Z) :
  day3_params p q -> 0 < p + q ->
  wf_cstring plaintext -> 0 < size plaintext <= INT_MAX ->
  (p <= 0 ->
   Day3.crypt_bytes char_signed p q plaintext
   = Ok (map (fun b => (b - 1) mod 256) plaintext)) /\
  (q <= 0 ->
   Day3.crypt_bytes char_signed p q plaintext
   = Ok (map (fun b => (b + 1) mod 256) plaintext)).
Proof.
  intros Hpar Hpos Hw [H0 H1].
  destruct (day3_run_c char_signed p q plaintext Hpar Hw H1 H0)
    as (out & Hrun & Hsz & Hout).
  rewrite Hrun.
  assert (Hmap : forall f i, 0 <= i < size plaintext ->
            byte_at (map f plaintext) i = f (byte_at plaintext i)).
  { intros f i Hi. unfold byte_at, size in *.
    rewrite (nth_indep _ 0 (f 0)) by (rewrite length_map; lia).
    apply map_nth. }
  split; intros Hs; f_equal; apply list_eq_byte_at;
    try (unfold size in *; rewrite length_map; lia);
    intros i Hi; rewrite Hout, Hmap by lia; unfold day3_byte_c;
    pose proof (Z.rem_bound_pos i (p + q) ltac:(lia) Hpos) as Hr.
  - replace (Z.rem i (p + q) >? p - 1) with true by lia. reflexivity.
  - replace (Z.rem i (p + q) >? p - 1) with false by lia. reflexivity.
Qed.

Lemma day3_one_sided_period_witness :
  Day3.crypt_bytes true 0 3 (bytes_of "AB") = Ok (bytes_of "@A") /\
  Day3.crypt_bytes true 3 0 (bytes_of "AB") = Ok (bytes_of "BC").
Proof.
  split.
  - destruct (day3_one_sided_period true 0 3 (bytes_of "AB")) as [H _].
    + unfold day3_params, INT_MIN, INT_MAX. lia.
    + lia.
    + unfold wf_cstring. vm_compute. repeat constructor; discriminate.
    + vm_compute. split; [reflexivity | discriminate].
    + apply H. lia.
  - destruct (day3_one_sided_period true 3 0 (bytes_of "AB")) as [_ H].
    + unfold day3_params, INT_MIN, INT_MAX. lia.
    + lia.
    + unfold wf_cstring. vm_compute. repeat constructor; discriminate.
    + vm_compute. split; [reflexivity | discriminate].
    + apply H. lia.
Defined.

Lemma hex_ok_day3 (sg : bool) (b : Z) :
  day3_ok sg b -> hex_ok sg ((b - 1) mod 256) /\ hex_ok sg ((b + 1) mod 256).
Proof.
  unfold day3_ok, hex_ok. destruct sg; intros H.
  - rewrite !Z.mod_small by lia. lia.
  - pose proof (Z.mod_pos_bound (b - 1) 256 ltac:(lia)).
    pose proof (Z.mod_pos_bound (b + 1) 256 ltac:(lia)). lia.
Qed.

(** X8.  Variant B end to end: on a non-empty plaintext whose bytes stay
    printable as two digits after the step (1 to 126 where [char] is signed,
    any byte where it is unsigned), [crypt] returns, without a fault, the
    hex encoding of the transformed bytes, a string of exactly
    [2 * strlen(plaintext)] characters. *)
Theorem day3_crypt_hex_output
    (char_signed : bool) (p q : Z) (plaintext : list Z) :
  day3_params p q ->
  Forall (day3_ok char_signed) plaintext ->
  0 < size plaintext -> 2 * size plaintext + 1 <= INT_MAX ->
  exists out m,
    Day3.crypt_bytes char_signed p q plaintext = Ok out /\
    Day3.crypt char_signed p q plaintext = Ok m /\
    c_str m = hex_string out /\
    size (c_str m) = 2 * size plaintext.
Proof.
  intros Hpar Hok H0 Hint.
  assert (Hw : wf_cstring plaintext).
  { unfold wf_cstring. eapply Forall_impl; [|exact Hok].
    intros b. unfold day3_ok. destruct char_signed; lia. }
  destruct (day3_run_c char_signed p q plaintext Hpar Hw
              ltac:(unfold INT_MAX in *; lia) H0)
    as (out & Hrun & Hsz & Hout).
  assert (Hct : Forall (hex_ok char_signed) out).
  { apply Forall_byte_at. intros i Hi. rewrite Hsz in Hi.
    rewrite Hout by lia. unfold day3_byte_c.
    destruct (hex_ok_day3 char_signed _ (Forall_at _ _ i Hok Hi)) as [Hm Hp].
    destruct (Z.rem i (p + q) >? p - 1); assumption. }
  assert (Hb : Forall (fun b => 0 <= b <= 255) out).
  { eapply Forall_impl; [|exact Hct]. intros b. apply hex_ok_byte. }
  exists out, (hex_string out ++ [0]).
  split; [exact Hrun|]. unfold Day3.crypt. rewrite Hrun. cbn [bind].
  rewrite (strlen_str_mem plaintext Hw), <- Hsz.
  split; [unfold Day3.charToHex; apply hex_encode_ok; [exact Hct | lia]|].
  rewrite c_str_app_nul by now apply hex_string_nonzero.
  split; [reflexivity | apply size_hex_string].
Qed.

Lemma day3_crypt_hex_output_witness :
  exists out m,
    Day3.crypt_bytes true 2 1 (bytes_of "AB") = Ok out /\
    Day3.crypt true 2 1 (bytes_of "AB") = Ok m /\
    c_str m = hex_string out /\
    size (c_str m) = 4.
Proof.
  apply (day3_crypt_hex_output true 2 1 (bytes_of "AB")).
  - unfold day3_params, INT_MIN, INT_MAX. lia.
  - unfold day3_ok. vm_compute. repeat constructor; discriminate.
  - reflexivity.
  - vm_compute. discriminate.
Defined.

(** ** Day 5: the schedule in closed form *)

Lemma byte_at_cons (b : Z) (r : list Z) (i : Z) :
  0 < i -> byte_at (b :: r) i = byte_at r (i - 1).
Proof.
  intros H. unfold byte_at.
  replace (Z.to_nat i) with (S (Z.to_nat (i - 1))) by lia. reflexivity.
Qed.

Lemma day5_block_ge_2 (n : Z) : 2 <= day5_block n.
Proof. unfold day5_block. lia. Qed.

Lemma day5_stop_range (sg : bool) (key : list Z) : 0 <= day5_stop sg key <= size key.
Proof.
  unfold size. induction key as [|b r IH]; cbn [day5_stop length]; [lia|].
  destruct (day5_advances sg b); lia.
Qed.

Lemma day5_stop_advances (sg : bool) (key : list Z) (k : Z) :
  0 <= k < day5_stop sg key ->
  day5_advances sg (byte_at (str_mem key) k) = true.
Proof.
  revert k. induction key as [|b r IH]; intros k Hk; cbn [day5_stop] in Hk; [lia|].
  destruct (day5_advances sg b) eqn:E; [|lia].
  destruct (Z.eq_dec k 0) as [->|Hne]; [exact E|].
  unfold str_mem. cbn [app]. rewrite byte_at_cons by lia. apply IH. lia.
Qed.

Lemma day5_stop_blocks (sg : bool) (key : list Z) :
  day5_advances sg (byte_at (str_mem key) (day5_stop sg key)) = false.
Proof.
  induction key as [|b r IH]; cbn [day5_stop].
  - unfold day5_advances, char_to_int. cbn. now rewrite Bool.andb_false_r.
  - destruct (day5_advances sg b) eqn:E; [|exact E].
    pose proof (day5_stop_range sg r).
    unfold str_mem. cbn [app]. rewrite byte_at_cons by lia.
    replace (1 + day5_stop sg r - 1) with (day5_stop sg r) by lia. exact IH.
Qed.

Section Day5_schedule.
Variable char_signed : bool.
Variable key : list Z.
Variable n : Z.
Variable plaintext : list Z.
Hypothesis key_wf : wf_cstring key.
Hypothesis pt_wf : wf_cstring plaintext.
Hypothesis pt_int : size plaintext <= INT_MAX.

(** The body in the skip phase. *)
Lemma day5_body_skip (ct : list Z) (ci ri si ki : Z)
    (ph : list Day5.phase) (rd : list Z) :
  0 <= ci < size plaintext -> size ct = size plaintext -> 0 <= si <= ci ->
  Day5.body char_signed key n plaintext (Day5.mkState ct ci ri si ki true ph rd)
  = Ok (Day5.mkState (upd (Z.to_nat ci) (byte_at plaintext ci) ct) (ci + 1) ri
          (if si + 1 <? n then si + 1 else 0) ki (si + 1 <? n)
          (ph ++ [Day5.Skip]) rd).
Proof.
  intros Hci Hsz Hsi. unfold Day5.body.
  cbn [Day5.skip Day5.char_index Day5.ciphertext Day5.repeat_index
       Day5.skip_index Day5.key_index Day5.phases Day5.key_reads].
  rewrite int_add_ok by (unfold INT_MIN, INT_MAX in *; lia). cbn [bind].
  rewrite load_ok by (rewrite size_str_mem; lia).
  rewrite byte_at_str_mem by lia. cbn [bind].
  rewrite store_ok by lia.
  cbn [bind Day5.skip Day5.char_index Day5.ciphertext Day5.repeat_index
       Day5.skip_index Day5.key_index Day5.phases Day5.key_reads].
  rewrite int_add_ok by (unfold INT_MIN, INT_MAX in *; lia). cbn [bind].
  destruct (si + 1 <? n); reflexivity.
Qed.

(** The body in the flip phase. *)
Lemma day5_body_flip (ct : list Z) (ci ri si ki : Z)
    (ph : list Day5.phase) (rd : list Z) :
  0 <= ci < size plaintext -> size ct = size plaintext -> 0 <= ri <= ci ->
  0 <= ki <= size key -> ki <= ci ->
  let ct' := upd (Z.to_nat ci) (Z.lxor (byte_at plaintext ci) 127) ct in
  Day5.body char_signed key n plaintext (Day5.mkState ct ci ri si ki false ph rd)
  = Ok (if ri + 1 <? char_to_int char_signed (byte_at (str_mem key) ki) - 48
        then Day5.mkState ct' (ci + 1) 0 si (ki + 1) true
               (ph ++ [Day5.Flip]) (rd ++ [ki])
        else Day5.mkState ct' (ci + 1) (ri + 1) si ki false
               (ph ++ [Day5.Flip]) (rd ++ [ki])).
Proof.
  intros Hci Hsz Hri Hki Hkc. cbv zeta.
  pose proof (wf_byte_at plaintext ci pt_wf ltac:(lia)) as Hpb.
  pose proof (key_byte_range key key_wf ki Hki) as Hkb.
  pose proof (char_to_int_range char_signed _ Hkb) as Hkv.
  unfold Day5.body.
  cbn [Day5.skip Day5.char_index Day5.ciphertext Day5.repeat_index
       Day5.skip_index Day5.key_index Day5.phases Day5.key_reads].
  rewrite load_ok by (rewrite size_str_mem; lia).
  rewrite byte_at_str_mem by lia. cbn [bind].
  rewrite store_ok by lia. cbn [bind].
  rewrite int_add_ok by (unfold INT_MIN, INT_MAX in *; lia). cbn [bind].
  rewrite load_ok by (rewrite size_str_mem; lia). cbn [bind].
  rewrite int_sub_ok by (unfold INT_MIN, INT_MAX in *; lia). cbn [bind].
  rewrite flip_char by lia.
  rewrite (strlen_str_mem key key_wf).
  destruct (ri + 1 <? char_to_int char_signed (byte_at (str_mem key) ki) - 48) eqn:Esk.
  - assert (Hin : ki < size key).
    { destruct (Z.eq_dec ki (size key)) as [->|Hne]; [|lia].
      rewrite byte_at_str_mem_end in Esk. unfold char_to_int in Esk.
      rewrite Bool.andb_false_r in Esk. lia. }
    rewrite int_add_ok by (unfold INT_MIN, INT_MAX in *; lia).
    cbn [bind fst snd Day5.skip Day5.char_index Day5.ciphertext
         Day5.repeat_index Day5.skip_index Day5.key_index Day5.phases
         Day5.key_reads].
    replace (ki + 1 >? size key) with false by lia.
    rewrite int_add_ok by (unfold INT_MIN, INT_MAX in *; lia). cbn [bind].
    reflexivity.
  - cbn [bind fst snd Day5.skip Day5.char_index Day5.ciphertext
         Day5.repeat_index Day5.skip_index Day5.key_index Day5.phases
         Day5.key_reads].
    rewrite int_add_ok by (unfold INT_MIN, INT_MAX in *; lia). cbn [bind].
    reflexivity.
Qed.

Lemma day5_schedule_phases (ph : list Day5.phase) (x : Day5.phase) (ci : Z) :
  Z.of_nat (length ph) = ci ->
  (forall i, 0 <= i < ci ->
     nth_error ph (Z.to_nat i) = Some (day5_schedule char_signed key n i)) ->
  x = day5_schedule char_signed key n ci ->
  forall i, 0 <= i < ci + 1 ->
    nth_error (ph ++ [x]) (Z.to_nat i) = Some (day5_schedule char_signed key n i).
Proof.
  intros Hlen Hold Hx i Hi. destruct (Z.eq_dec i ci) as [->|Hne].
  - rewrite <- Hlen, nth_error_snoc_new, Hlen. now rewrite Hx.
  - rewrite nth_error_snoc_old by lia. apply Hold. lia.
Qed.

(** One turn of the loop keeps the control state on the schedule. *)
Lemma day5_ctrl_step (s s' : Day5.state) :
  day5_pre key plaintext s -> day5_ctrl char_signed key n s ->
  Day5.body char_signed key n plaintext s = Ok s' ->
  day5_ctrl char_signed key n s'.
Proof.
  intros ((Hci & Hsz & Hri & Hsi & Hki & Hkc & Hph & _ & _) & Hlt) Hctrl Hbody.
  destruct s as [ct ci ri si ki sk ph rd].
  unfold day5_ctrl in *.
  cbn [Day5.skip Day5.char_index Day5.ciphertext Day5.repeat_index
       Day5.skip_index Day5.key_index Day5.phases Day5.key_reads] in *.
  cbv zeta in *.
  pose proof (day5_block_ge_2 n) as HB.
  pose proof (day5_stop_range char_signed key) as HS.
  set (B := day5_block n) in *. set (S0 := day5_stop char_signed key) in *.
  destruct Hctrl as (Hlow & Hhigh & Hphases).
  pose proof (Z.mod_pos_bound ci B ltac:(lia)) as Hr.
  pose proof (Z.div_mod ci B ltac:(lia)) as Hdm.
  pose proof (succ_mod ci B ltac:(lia) ltac:(lia)) as Hsm.
  pose proof (succ_div ci B ltac:(lia) ltac:(lia)) as Hsd.
  destruct (Z.lt_ge_cases ci (S0 * B)) as [Hlo|Hhi].
  - destruct (Hlow Hlo) as (Hsk & Hri0 & Hsi0 & Hki0). clear Hlow Hhigh.
    assert (Hk : 0 <= ci / B < S0).
    { split; [apply Z.div_pos; lia|]. nia. }
    destruct (ci mod B =? 0) eqn:Er0.
    + (* the flipped byte of a block *)
      cbn [negb] in Hsk. subst sk ri si ki.
      rewrite day5_body_flip in Hbody by lia.
      pose proof (day5_stop_advances char_signed key (ci / B) Hk) as Hadv.
      unfold day5_advances in Hadv. change (0 + 1) with 1 in Hbody.
      rewrite Hadv in Hbody. injection Hbody as <-.
      cbn [Day5.skip Day5.char_index Day5.ciphertext Day5.repeat_index
           Day5.skip_index Day5.key_index Day5.phases Day5.key_reads].
      replace (ci mod B + 1 =? B) with false in Hsm, Hsd by lia.
      rewrite Hsm, Hsd.
      replace (ci mod B + 1 =? 0) with false by lia.
      split; [intros _; repeat split; lia|].
      split; [intros Hge; nia|].
      apply day5_schedule_phases; [exact Hph | exact Hphases|].
      unfold day5_schedule. fold B S0. now rewrite Er0, Bool.andb_false_r.
    + (* a skipped byte of a block *)
      cbn [negb] in Hsk. subst sk ri si ki.
      rewrite day5_body_skip in Hbody by lia.
      injection Hbody as <-.
      cbn [Day5.skip Day5.char_index Day5.ciphertext Day5.repeat_index
           Day5.skip_index Day5.key_index Day5.phases Day5.key_reads].
      replace (ci mod B - 1 + 1) with (ci mod B) by lia.
      assert (Hsched : Day5.Skip = day5_schedule char_signed key n ci).
      { unfold day5_schedule. fold B S0. rewrite Er0.
        replace (ci <? S0 * B) with true by lia. reflexivity. }
      destruct (ci mod B + 1 =? B) eqn:Elast; rewrite Hsm, Hsd.
      * (* the last one: back to the flip phase *)
        replace (ci mod B <? n) with false by (unfold B, day5_block in *; lia).
        split; [intros _; cbn; repeat split; lia|].
        split; [intros Hge; repeat split; nia|].
        now apply day5_schedule_phases.
      * replace (ci mod B <? n) with true by (unfold B, day5_block in *; lia).
        replace (ci mod B + 1 =? 0) with false by lia.
        split; [intros _; repeat split; lia|].
        split; [intros Hge; nia|].
        now apply day5_schedule_phases.
  - (* past the last block: flips only *)
    destruct (Hhigh Hhi) as (Hsk & Hsi0 & Hki0 & Hri0). clear Hlow Hhigh.
    subst sk si ki ri.
    rewrite day5_body_flip in Hbody by lia.
    pose proof (day5_stop_blocks char_signed key) as Hblk. fold S0 in Hblk.
    unfold day5_advances in Hblk.
    replace (ci - S0 * B + 1 <?
             char_to_int char_signed (byte_at (str_mem key) S0) - 48)
      with false in Hbody by lia.
    injection Hbody as <-.
    cbn [Day5.skip Day5.char_index Day5.ciphertext Day5.repeat_index
         Day5.skip_index Day5.key_index Day5.phases Day5.key_reads].
    split; [intros Hc; lia|].
    split; [intros _; repeat split; lia|].
    apply day5_schedule_phases; [exact Hph | exact Hphases|].
    unfold day5_schedule. fold B S0.
    replace (ci <? S0 * B) with false by lia. reflexivity.
Qed.

Lemma day5_schedule_run :
  0 < size plaintext ->
  exists s, Day5.crypt_run char_signed key n plaintext = Ok s /\
    day5_inv key plaintext s /\ Day5.char_index s = size plaintext /\
    day5_ctrl char_signed key n s.
Proof.
  intros Hne. unfold Day5.crypt_run.
  destruct (do_while_rule (Day5.body char_signed key n plaintext) (Day5.cond plaintext)
              (fun s => day5_pre key plaintext s /\ day5_ctrl char_signed key n s)
              (fun s => day5_post key plaintext s /\ day5_ctrl char_signed key n s)
              (fun s => Z.to_nat (size plaintext - Day5.char_index s)))
    with (fuel := S (length plaintext)) (s := Day5.init plaintext)
    as (s & Hrun & ((Hinv & _) & Hctrl) & Hc).
  - intros s [Hpre Hctrl].
    destruct (day5_step char_signed key n plaintext key_wf pt_wf pt_int s Hpre)
      as (s' & Hbody & Hpost & Hnext).
    exists s'. split; [exact Hbody|].
    pose proof (day5_ctrl_step s s' Hpre Hctrl Hbody) as Hctrl'.
    split; [split; assumption|].
    intros Hc. destruct (Hnext Hc) as [Hpre' Hlt].
    split; [split; assumption | assumption].
  - split.
    + unfold day5_pre, day5_inv, Day5.init.
      cbn [Day5.skip Day5.char_index Day5.ciphertext Day5.repeat_index
           Day5.skip_index Day5.key_index Day5.phases Day5.key_reads].
      rewrite strlen_str_mem by assumption.
      rewrite size_calloc by apply size_nonneg.
      pose proof (size_nonneg key).
      repeat split; auto; try lia.
    + unfold day5_ctrl, Day5.init.
      cbn [Day5.skip Day5.char_index Day5.ciphertext Day5.repeat_index
           Day5.skip_index Day5.key_index Day5.phases Day5.key_reads].
      cbv zeta. pose proof (day5_block_ge_2 n).
      pose proof (day5_stop_range char_signed key).
      rewrite Z.mod_0_l, Z.div_0_l by lia.
      split; [intros _; repeat split|].
      split; [intros Hle; repeat split; nia | intros i Hi; lia].
  - unfold Day5.init, size. cbn [Day5.char_index]. lia.
  - exists s. split; [exact Hrun|]. split; [exact Hinv|].
    split; [|exact Hctrl].
    unfold Day5.cond in Hc. rewrite strlen_str_mem in Hc by assumption.
    destruct Hinv as (Hci & _). lia.
Qed.

End Day5_schedule.

(** X9.  Variant C in closed form.  Let [m = max(n, 1)] and let [S] be the
    number of leading key bytes [b] with [(int)b - 48 >= 2].  The first [S]
    blocks of [1 + m] positions are one flipped byte followed by [m]
    unchanged bytes; every position from [S * (1 + m)] on is flipped.  The
    loop ends on every non-empty plaintext with exactly these phases and
    bytes. *)
Theorem day5_crypt_closed_form
    (char_signed : bool) (key : list Z) (n : Z) (plaintext : list Z) :
  wf_cstring key -> wf_cstring plaintext ->
  0 < size plaintext <= INT_MAX ->
  exists s,
    Day5.crypt_run char_signed key n plaintext = Ok s /\
    Day5.crypt_bytes char_signed key n plaintext = Ok (Day5.ciphertext s) /\
    size (Day5.ciphertext s) = size plaintext /\
    forall i, 0 <= i < size plaintext ->
      nth_error (Day5.phases s) (Z.to_nat i)
      = Some (day5_schedule char_signed key n i) /\
      byte_at (Day5.ciphertext s) i = day5_byte char_signed key n plaintext i.
Proof.
  intros Hk Hp [H0 H1].
  destruct (day5_schedule_run char_signed key n plaintext Hk Hp H1 H0)
    as (s & Hrun & (_ & Hsz & _ & _ & _ & _ & _ & Hrel & _) & Hci & Hctrl).
  destruct Hctrl as (_ & _ & Hph).
  exists s. split; [exact Hrun|].
  split; [unfold Day5.crypt_bytes; now rewrite Hrun|].
  split; [exact Hsz|].
  intros i Hi. rewrite Hci in *.
  specialize (Hrel i Hi). specialize (Hph i Hi).
  split; [exact Hph|].
  rewrite Hph in Hrel. unfold day5_byte.
  destruct (day5_schedule char_signed key n i); cbn [day5_rel] in Hrel.
  - rewrite <- Hrel. now rewrite flip_flip.
  - exact Hrel.
Qed.

Lemma day5_crypt_closed_form_witness :
  exists s,
    Day5.crypt_run true (bytes_of "3412") 3
      (bytes_of "Hello, this a secret message :)") = Ok s /\
    Day5.crypt_bytes true (bytes_of "3412") 3
      (bytes_of "Hello, this a secret message :)") = Ok (Day5.ciphertext s) /\
    size (Day5.ciphertext s) = 31 /\
    forall i, 0 <= i < 31 ->
      nth_error (Day5.phases s) (Z.to_nat i)
      = Some (day5_schedule true (bytes_of "3412") 3 i) /\
      byte_at (Day5.ciphertext s) i
      = day5_byte true (bytes_of "3412") 3
          (bytes_of "Hello, this a secret message :)") i.
Proof.
  apply (day5_crypt_closed_form true (bytes_of "3412") 3
           (bytes_of "Hello, this a secret message :)")).
  - unfold wf_cstring. vm_compute. repeat constructor; discriminate.
  - unfold wf_cstring. vm_compute. repeat constructor; discriminate.
  - vm_compute. split; [reflexivity | discriminate].
Defined.

(** The transformed bytes, from the closed form. *)
Lemma day5_bytes_closed
    (sg : bool) (key : list Z) (n : Z) (plaintext : list Z) :
  wf_cstring key -> wf_cstring plaintext ->
  0 < size plaintext <= INT_MAX ->
  exists out,
    Day5.crypt_bytes sg key n plaintext = Ok out /\
    size out = size plaintext /\
    forall i, 0 <= i < size plaintext ->
      byte_at out i = day5_byte sg key n plaintext i.
Proof.
  intros Hk Hp [H0 H1].
  destruct (day5_schedule_run sg key n plaintext Hk Hp H1 H0)
    as (s & Hrun & (_ & Hsz & _ & _ & _ & _ & _ & Hrel & _) & Hci & Hctrl).
  destruct Hctrl as (_ & _ & Hph).
  exists (Day5.ciphertext s).
  split; [unfold Day5.crypt_bytes; now rewrite Hrun|].
  split; [exact Hsz|].
  intros i Hi. rewrite Hci in *.
  specialize (Hrel i Hi). rewrite (Hph i Hi) in Hrel. unfold day5_byte.
  destruct (day5_schedule sg key n i); cbn [day5_rel] in Hrel.
  - rewrite <- Hrel. now rewrite flip_flip.
  - exact Hrel.
Qed.

(** X10.  Variant C undoes itself: the phases depend on the key, [n] and
    the position only, and flipping twice restores a byte, so the loop of
    [crypt] run on its own output gives the plaintext back, as long as that
    output is again a C string (no byte 0x7F was flipped to NUL). *)
Theorem day5_crypt_bytes_self_inverse
    (char_signed : bool) (key : list Z) (n : Z) (plaintext : list Z) :
  wf_cstring key -> wf_cstring plaintext ->
  0 < size plaintext <= INT_MAX ->
  exists out,
    Day5.crypt_bytes char_signed key n plaintext = Ok out /\
    (wf_cstring out -> Day5.crypt_bytes char_signed key n out = Ok plaintext).
Proof.
  intros Hk Hp Hsz.
  destruct (day5_bytes_closed char_signed key n plaintext Hk Hp Hsz)
    as (out & Hrun & Hlen & Hout).
  exists out. split; [exact Hrun|]. intros Hwf.
  destruct (day5_bytes_closed char_signed key n out Hk Hwf ltac:(lia))
    as (out2 & Hrun2 & Hlen2 & Hout2).
  rewrite Hrun2. f_equal. apply list_eq_byte_at; [lia|]. intros i Hi.
  rewrite Hout2 by lia. unfold day5_byte at 1.
  rewrite Hout by lia. unfold day5_byte.
  destruct (day5_schedule char_signed key n i);
    [apply lxor_lxor | reflexivity].
Qed.

Lemma day5_crypt_bytes_self_inverse_witness :
  Day5.crypt_bytes true (bytes_of "8675309") 1 (bytes_of "Hello")
  = Ok [55; 101; 19; 108; 16] /\
  Day5.crypt_bytes true (bytes_of "8675309") 1 [55; 101; 19; 108; 16]
  = Ok (bytes_of "Hello").
Proof.
  destruct (day5_crypt_bytes_self_inverse true (bytes_of "8675309") 1 (bytes_of "Hello"))
    as (out & Hout & Hback).
  - unfold wf_cstring. vm_compute. repeat constructor; discriminate.
  - unfold wf_cstring. vm_compute. repeat constructor; discriminate.
  - vm_compute. split; [reflexivity | discriminate].
  - assert (E : out = [55; 101; 19; 108; 16])
      by (vm_compute in Hout; now injection Hout as <-).
    subst out. split; [reflexivity|]. apply Hback.
    unfold wf_cstring. repeat constructor; lia.
Defined.

(** X11.  A skip length below 1 still skips one byte: for [n <= 1] the
    test [skip_index < n] fails on the first skipped byte, as it does for
    [n = 1], and [crypt] returns what it returns for [n = 1]. *)
Theorem day5_skip_length_below_one
    (char_signed : bool) (key : list Z) (n : Z) (plaintext : list Z) :
  wf_cstring key -> wf_cstring plaintext ->
  0 < size plaintext <= INT_MAX -> n <= 1 ->
  Day5.crypt_bytes char_signed key n plaintext
  = Day5.crypt_bytes char_signed key 1 plaintext /\
  Day5.crypt char_signed key n plaintext = Day5.crypt char_signed key 1 plaintext.
Proof.
  intros Hk Hp Hsz Hn.
  destruct (day5_bytes_closed char_signed key n plaintext Hk Hp Hsz)
    as (out & Hrun & Hlen & Hout).
  destruct (day5_bytes_closed char_signed key 1 plaintext Hk Hp Hsz)
    as (out1 & Hrun1 & Hlen1 & Hout1).
  assert (Heq : out = out1).
  { apply list_eq_byte_at; [lia|]. intros i Hi.
    rewrite Hout, Hout1 by lia.
    unfold day5_byte, day5_schedule, day5_block.
    now replace (Z.max n 1) with (Z.max 1 1) by lia. }
  assert (Hb : Day5.crypt_bytes char_signed key n plaintext
               = Day5.crypt_bytes char_signed key 1 plaintext)
    by (rewrite Hrun, Hrun1; now f_equal).
  split; [exact Hb|]. unfold Day5.crypt. now rewrite Hb.
Qed.

Lemma day5_skip_length_below_one_witness :
  Day5.crypt_bytes true (bytes_of "8675309") (-4) (bytes_of "Hello")
  = Day5.crypt_bytes true (bytes_of "8675309") 1 (bytes_of "Hello") /\
  Day5.crypt true (bytes_of "8675309") (-4) (bytes_of "Hello")
  = Day5.crypt true (bytes_of "8675309") 1 (bytes_of "Hello").
Proof.
  apply (day5_skip_length_below_one true (bytes_of "8675309") (-4) (bytes_of "Hello")).
  - unfold wf_cstring. vm_compute. repeat constructor; discriminate.
  - unfold wf_cstring. vm_compute. repeat constructor; discriminate.
  - vm_compute. split; [reflexivity | discriminate].
  - lia.
Defined.

Lemma day5_stop_zero (sg : bool) (key : list Z) :
  char_to_int sg (byte_at (str_mem key) 0) - 48 <= 1 -> day5_stop sg key = 0.
Proof.
  destruct key as [|b r]; [reflexivity|].
  unfold str_mem, byte_at. cbn [app Z.to_nat nth day5_stop]. intros H.
  unfold day5_advances. now replace (1 <? char_to_int sg b - 48) with false by lia.
Qed.

(** X12.  An empty key, or a key whose first byte is below ['2'], never
    ends the flip phase: [repeat_index < key[0] - 48] fails from the first
    byte on, and every byte of the plaintext is XORed with 0x7F. *)
Theorem day5_low_first_digit_flips_all
    (char_signed : bool) (key : list Z) (n : Z) (plaintext : list Z) :
  wf_cstring key -> wf_cstring plaintext ->
  0 < size plaintext <= INT_MAX ->
  char_to_int char_signed (byte_at (str_mem key) 0) - 48 <= 1 ->
  Day5.crypt_bytes char_signed key n plaintext
  = Ok (map (fun b => Z.lxor b 127) plaintext).
Proof.
  intros Hk Hp Hsz Hd.
  destruct (day5_bytes_closed char_signed key n plaintext Hk Hp Hsz)
    as (out & Hrun & Hlen & Hout).
  rewrite Hrun. f_equal. apply list_eq_byte_at;
    [unfold size in *; rewrite length_map; lia|].
  intros i Hi. rewrite Hout by lia.
  unfold day5_byte, day5_schedule. rewrite (day5_stop_zero _ _ Hd).
  replace (i <? 0 * day5_block n) with false by lia. cbn [andb].
  unfold byte_at, size in *.
  rewrite (nth_indep (map _ _) 0 (Z.lxor 0 127)) by (rewrite length_map; lia).
  symmetry. apply (map_nth (fun b => Z.lxor b 127)).
Qed.

Lemma day5_low_first_digit_flips_all_witness :
  Day5.crypt_bytes true [] 1 (bytes_of "Hello") = Ok [55; 26; 19; 19; 16] /\
  Day5.crypt_bytes true (bytes_of "1234") 1 (bytes_of "Hello")
  = Ok [55; 26; 19; 19; 16].
Proof.
  split.
  - apply (day5_low_first_digit_flips_all true [] 1 (bytes_of "Hello")).
    + constructor.
    + unfold wf_cstring. vm_compute. repeat constructor; discriminate.
    + vm_compute. split; [reflexivity | discriminate].
    + vm_compute. discriminate.
  - apply (day5_low_first_digit_flips_all true (bytes_of "1234") 1 (bytes_of "Hello")).
    + unfold wf_cstring. vm_compute. repeat constructor; discriminate.
    + unfold wf_cstring. vm_compute. repeat constructor; discriminate.
    + vm_compute. split; [reflexivity | discriminate].
    + vm_compute. discriminate.
Defined.

(** X13.  Variant C never reads its key beyond the terminator: every index
    at which the loop reads [key[...]] is at most [strlen(key)], and the key
    index ends no further than the first key byte whose digit is below 2.
    The reset [key_index > strlen(key)] is never taken. *)
Theorem day5_key_reads_within_string
    (char_signed : bool) (key : list Z) (n : Z) (plaintext : list Z) :
  wf_cstring key -> wf_cstring plaintext ->
  0 < size plaintext <= INT_MAX ->
  exists s,
    Day5.crypt_run char_signed key n plaintext = Ok s /\
    Forall (fun r => in_bounds (str_mem key) r = true) (Day5.key_reads s) /\
    0 <= Day5.key_index s <= day5_stop char_signed key /\
    day5_stop char_signed key <= size key.
Proof.
  intros Hk Hp [H0 H1].
  destruct (day5_schedule_run char_signed key n plaintext Hk Hp H1 H0)
    as (s & Hrun & (_ & _ & _ & _ & Hki & _ & _ & _ & Hrd) & Hci & Hctrl).
  exists s. split; [exact Hrun|].
  pose proof (day5_stop_range char_signed key) as HS.
  split; [|split; [|lia]].
  - eapply Forall_impl; [|exact Hrd]. intros r Hr. cbv beta in Hr.
    apply in_bounds_true. rewrite size_str_mem. lia.
  - destruct Hctrl as (Hlow & Hhigh & _). cbv zeta in *.
    pose proof (day5_block_ge_2 n) as HB.
    destruct (Z.lt_ge_cases (Day5.char_index s)
                (day5_stop char_signed key * day5_block n)) as [Hlo|Hhi].
    + destruct (Hlow Hlo) as (_ & _ & _ & Hkx).
      pose proof (Z.div_mod (Day5.char_index s) (day5_block n) ltac:(lia)).
      pose proof (Z.mod_pos_bound (Day5.char_index s) (day5_block n) ltac:(lia)).
      assert (Day5.char_index s / day5_block n < day5_stop char_signed key) by nia.
      destruct (Day5.char_index s mod day5_block n =? 0); lia.
    + destruct (Hhigh Hhi) as (_ & _ & Hkx & _). lia.
Qed.

Lemma day5_key_reads_within_string_witness :
  exists s,
    Day5.crypt_run true (bytes_of "8675309") 1
      (bytes_of "Hello, this a secret message :)") = Ok s /\
    Forall (fun r => in_bounds (str_mem (bytes_of "8675309")) r = true)
      (Day5.key_reads s) /\
    0 <= Day5.key_index s <= 5 /\
    5 <= 7.
Proof.
  apply (day5_key_reads_within_string true (bytes_of "8675309") 1
           (bytes_of "Hello, this a secret message :)")).
  - unfold wf_cstring. vm_compute. repeat constructor; discriminate.
  - unfold wf_cstring. vm_compute. repeat constructor; discriminate.
  - vm_compute. split; [reflexivity | discriminate].
Defined.

(** ** Day 5: [rev] *)

(** The loop of [rev] on [pre ++ suf ++ tail] with [len] one more than the
    length of [pre ++ suf], once [suf] has been copied: [tail] is not read. *)
Lemma rev_loop_prefix (pre : list Z) :
  forall (suf tail : list Z) (fuel : nat),
  size pre + size suf + 1 <= INT_MAX ->
  (length pre <= fuel)%nat ->
  Day5.rev_loop fuel (size pre + size suf + 1) (size suf)
    (Day5.mkRev (pre ++ suf ++ tail) (rev suf ++ repeat 0 (length pre + 1)))
  = Ok (Day5.mkRev (pre ++ suf ++ tail) (rev (pre ++ suf) ++ [0])).
Proof.
  induction pre as [|y pre IH] using rev_ind; intros suf tail fuel Hint Hfuel;
    pose proof (size_nonneg suf) as Hs.
  - change (size []) with 0 in *.
    destruct fuel; cbn [Day5.rev_loop];
      rewrite int_sub_ok by (unfold INT_MIN, INT_MAX in *; lia);
      (replace (size suf <? 0 + size suf + 1 - 1) with false by lia);
      reflexivity.
  - pose proof (size_nonneg pre) as Hp.
    rewrite size_app1 in *. rewrite length_app in Hfuel. cbn [length] in Hfuel.
    destruct fuel as [|fuel]; [lia|].
    cbn [Day5.rev_loop].
    rewrite int_sub_ok by (unfold INT_MIN, INT_MAX in *; lia).
    replace (size suf <? size pre + 1 + size suf + 1 - 1) with true by lia.
    rewrite int_sub_ok by (unfold INT_MIN, INT_MAX in *; lia). cbn [bind].
    rewrite int_sub_ok by (unfold INT_MIN, INT_MAX in *; lia). cbn [bind].
    cbn [Day5.input Day5.retval].
    replace (size pre + 1 + size suf + 1 - 2 - size suf) with (size pre) by lia.
    rewrite <- app_assoc. cbn [app].
    rewrite load_ok
      by (unfold size in *; rewrite !length_app; cbn [length]; lia).
    replace (byte_at (pre ++ y :: suf ++ tail) (size pre)) with y
      by (unfold byte_at, size; rewrite Nat2Z.id, app_nth2, Nat.sub_diag by lia;
          reflexivity).
    cbn [bind].
    replace (repeat 0 (length (pre ++ [y]) + 1))
      with (0 :: repeat 0 (length pre + 1))
      by (rewrite length_app; cbn [length];
          replace (length pre + 1 + 1)%nat with (S (length pre + 1)) by lia;
          reflexivity).
    pose proof (store_app (rev suf) 0 y (repeat 0 (length pre + 1))) as Hst.
    replace (size (rev suf)) with (size suf) in Hst
      by (unfold size; now rewrite length_rev).
    rewrite Hst. cbn [bind].
    rewrite int_add_ok by (unfold INT_MIN, INT_MAX in *; lia). cbn [bind].
    specialize (IH (y :: suf) tail fuel).
    replace (size (y :: suf)) with (size suf + 1) in IH
      by (unfold size; cbn [length]; lia).
    cbn [rev app] in IH. rewrite <- !app_assoc in IH. cbn [app] in IH.
    replace (size pre + 1 + size suf + 1) with (size pre + (size suf + 1) + 1) by lia.
    replace ((pre ++ [y]) ++ suf) with (pre ++ y :: suf)
      by (now rewrite <- app_assoc).
    apply IH; lia.
Qed.

(** X14.  [rev] by its length argument.  It reads the first [len - 1]
    elements of its input and nothing after them: for [len] up to one more
    than the size of the object the result is those elements reversed and a
    zero byte, whatever follows them.  For a larger [len] the first read,
    at index [len - 2], is outside the object. *)
Theorem day5_rev_by_length (front tail : list Z) (len : Z) :
  (len = size front + 1 -> len <= INT_MAX ->
   Day5.rev (front ++ tail) len
   = Ok (Day5.mkRev (front ++ tail) (rev front ++ [0]))) /\
  (size front + 1 < len <= INT_MAX ->
   Day5.rev front len = Fault (OobRead (len - 2) (size front))).
Proof.
  pose proof (size_nonneg front) as Hf. split.
  - intros -> Hint. unfold Day5.rev, calloc.
    replace (Z.to_nat (size front + 1)) with (length front + 1)%nat
      by (unfold size; lia).
    pose proof (rev_loop_prefix front [] tail (length front + 1)) as H.
    change (size []) with 0 in H. cbn [rev app] in H.
    rewrite app_nil_r in H. rewrite Z.add_0_r in H.
    apply H; lia.
  - intros [Hlen Hint]. unfold Day5.rev.
    destruct (Z.to_nat len) as [|fuel] eqn:Efuel; [lia|].
    cbn [Day5.rev_loop].
    rewrite int_sub_ok by (unfold INT_MIN, INT_MAX in *; lia).
    replace (0 <? len - 1) with true by lia.
    rewrite int_sub_ok by (unfold INT_MIN, INT_MAX in *; lia). cbn [bind].
    rewrite int_sub_ok by (unfold INT_MIN, INT_MAX in *; lia). cbn [bind].
    cbn [Day5.input]. unfold load.
    rewrite in_bounds_false by lia. rewrite Z.sub_0_r. reflexivity.
Qed.

Lemma day5_rev_by_length_witness :
  Day5.rev (bytes_of "abc" ++ bytes_of "xyz") 4
  = Ok (Day5.mkRev (bytes_of "abcxyz") (bytes_of "cba" ++ [0])) /\
  Day5.rev (bytes_of "abc") 6 = Fault (OobRead 4 3).
Proof.
  split.
  - apply (proj1 (day5_rev_by_length (bytes_of "abc") (bytes_of "xyz") 4)).
    + reflexivity.
    + vm_compute. discriminate.
  - apply (proj2 (day5_rev_by_length (bytes_of "abc") [] 6)).
    vm_compute. split; [reflexivity | discriminate].
Defined.

(** X15.  Reversing twice restores a string: [rev] applied with the same
    length to its own result on a NUL-terminated buffer returns that
    buffer. *)
Theorem day5_rev_twice (text : list Z) :
  size text + 1 <= INT_MAX ->
  exists m1 m2,
    Day5.rev (text ++ [0]) (size text + 1) = Ok m1 /\
    Day5.rev (Day5.retval m1) (size text + 1) = Ok m2 /\
    Day5.retval m2 = text ++ [0].
Proof.
  intros Hint.
  exists (Day5.mkRev (text ++ [0]) (rev text ++ [0])),
         (Day5.mkRev (rev text ++ [0]) (text ++ [0])).
  split; [now apply rev_ok|]. cbn [Day5.retval]. split; [|reflexivity].
  pose proof (rev_ok (rev text) 0) as H.
  replace (size (rev text)) with (size text) in H
    by (unfold size; now rewrite length_rev).
  rewrite rev_involutive in H. now apply H.
Qed.

Lemma day5_rev_twice_witness :
  exists m1 m2,
    Day5.rev (bytes_of "3E4A" ++ [0]) 5 = Ok m1 /\
    Day5.rev (Day5.retval m1) 5 = Ok m2 /\
    Day5.retval m2 = bytes_of "3E4A" ++ [0].
Proof.
  apply (day5_rev_twice (bytes_of "3E4A")).
  vm_compute. discriminate.
Defined.

(** X17.  Day 5's encoder against Day 1's: on bytes [(int)c] leaves alone,
    the string Day 5's [charToHex] returns, passed through [rev] once more
    with the same length [2 * len + 1], is the string Day 1's [charToHex]
    returns for the same bytes. *)
Theorem day5_charToHex_reversed_back (char_signed : bool) (bytes : list Z) :
  Forall (hex_ok char_signed) bytes ->
  2 * size bytes + 1 <= INT_MAX ->
  exists m1 m5 r,
    Day1.charToHex char_signed bytes (size bytes) = Ok m1 /\
    Day5.charToHex char_signed bytes (size bytes) = Ok m5 /\
    Day5.rev m5 (2 * size bytes + 1) = Ok r /\
    Day5.retval r = m1.
Proof.
  intros Hok Hint.
  exists (hex_string bytes ++ [0]), (rev (hex_string bytes) ++ [0]),
         (Day5.mkRev (rev (hex_string bytes) ++ [0]) (hex_string bytes ++ [0])).
  split; [unfold Day1.charToHex; now apply hex_encode_ok|].
  split; [now apply day5_charToHex_ok|].
  split; [|reflexivity].
  pose proof (rev_ok (rev (hex_string bytes)) 0) as H.
  replace (size (rev (hex_string bytes))) with (2 * size bytes) in H
    by (rewrite <- size_hex_string; unfold size; now rewrite length_rev).
  rewrite rev_involutive in H. now apply H.
Qed.

Lemma day5_charToHex_reversed_back_witness :
  exists m1 m5 r,
    Day1.charToHex true (bytes_of "Hi!") 3 = Ok m1 /\
    Day5.charToHex true (bytes_of "Hi!") 3 = Ok m5 /\
    Day5.rev m5 7 = Ok r /\
    Day5.retval r = m1.
Proof.
  apply (day5_charToHex_reversed_back true (bytes_of "Hi!")).
  - unfold hex_ok. vm_compute. repeat constructor; discriminate.
  - vm_compute. discriminate.
Defined.

(** * The key index at the key length, and empty inputs *)

Lemma ordered_snoc (l : list Z) (x : Z) :
  ordered l -> Forall (fun r => r <= x) l -> ordered (l ++ [x]).
Proof.
  intros Hl Hx i j a b Hij Hi Hj.
  assert (Hjlen : (j < length (l ++ [x]))%nat)
    by (apply nth_error_Some; now rewrite Hj).
  rewrite length_app in Hjlen. cbn [length] in Hjlen.
  rewrite nth_error_app1 in Hi by lia.
  destruct (Nat.eq_dec j (length l)) as [->|Hne].
  - rewrite nth_error_app2, Nat.sub_diag in Hj by lia.
    injection Hj as <-. rewrite Forall_forall in Hx.
    apply Hx. eapply nth_error_In. exact Hi.
  - rewrite nth_error_app1 in Hj by lia. exact (Hl i j a b Hij Hi Hj).
Qed.

Section Day5_reads.
Variable char_signed : bool.
Variable key : list Z.
Variable n : Z.
Variable plaintext : list Z.
Hypothesis key_wf : wf_cstring key.
Hypothesis pt_wf : wf_cstring plaintext.
Hypothesis pt_int : size plaintext <= INT_MAX.

(** One turn of the loop never takes the key index back. *)
Lemma day5_reads_step (s s' : Day5.state) :
  day5_pre key plaintext s -> day5_reads_inv s ->
  Day5.body char_signed key n plaintext s = Ok s' ->
  day5_reads_inv s'.
Proof.
  intros ((Hci & Hsz & Hri & Hsi & Hki & Hkc & _) & Hlt)
         (Hord & Hle & Hfirst & Hread) Hbody.
  destruct s as [ct ci ri si ki sk ph rd].
  unfold day5_reads_inv in *.
  cbn [Day5.skip Day5.char_index Day5.ciphertext Day5.repeat_index
       Day5.skip_index Day5.key_index Day5.phases Day5.key_reads] in *.
  destruct sk.
  - rewrite day5_body_skip in Hbody by (assumption || lia).
    injection Hbody as <-.
    cbn [Day5.key_index Day5.key_reads Day5.char_index Day5.skip].
    split; [assumption|]. split; [assumption|]. split; [lia|].
    intros _. apply Hread.
    destruct (Z.eq_dec ci 0) as [->|Hne]; [|lia].
    specialize (Hfirst eq_refl). discriminate.
  - rewrite day5_body_flip in Hbody by (assumption || lia).
    assert (Hord' : ordered (rd ++ [ki])) by now apply ordered_snoc.
    assert (Hne : rd ++ [ki] <> []) by (intros E; now apply app_eq_nil in E as [_ E]).
    destruct (ri + 1 <? char_to_int char_signed (byte_at (str_mem key) ki) - 48);
      injection Hbody as <-;
      cbn [Day5.key_index Day5.key_reads Day5.char_index Day5.skip];
      (split; [exact Hord'|]);
      (split; [|split; [lia | intros _; exact Hne]]);
      apply Forall_app; split.
    + eapply Forall_impl; [|exact Hle]. intros r Hr. cbv beta in Hr. lia.
    + constructor; [lia | constructor].
    + exact Hle.
    + constructor; [lia | constructor].
Qed.

Lemma day5_reads_run :
  0 < size plaintext ->
  exists s, Day5.crypt_run char_signed key n plaintext = Ok s /\
    day5_inv key plaintext s /\
    ordered (Day5.key_reads s ++ [Day5.key_index s]) /\
    Day5.key_reads s <> [].
Proof.
  intros Hne. unfold Day5.crypt_run.
  destruct (do_while_rule (Day5.body char_signed key n plaintext) (Day5.cond plaintext)
              (fun s => day5_pre key plaintext s /\ day5_reads_inv s)
              (fun s => day5_post key plaintext s /\ day5_reads_inv s)
              (fun s => Z.to_nat (size plaintext - Day5.char_index s)))
    with (fuel := S (length plaintext)) (s := Day5.init plaintext)
    as (s & Hrun & ((Hinv & Hpos) & (Hord & Hle & _ & Hread)) & _).
  - intros s [Hpre Hreads].
    destruct (day5_step char_signed key n plaintext key_wf pt_wf pt_int s Hpre)
      as (s' & Hbody & Hpost & Hnext).
    exists s'. split; [exact Hbody|].
    pose proof (day5_reads_step s s' Hpre Hreads Hbody) as Hreads'.
    split; [split; assumption|].
    intros Hc. destruct (Hnext Hc) as [Hpre' Hlt].
    split; [split; assumption | assumption].
  - split.
    + unfold day5_pre, day5_inv, Day5.init.
      cbn [Day5.skip Day5.char_index Day5.ciphertext Day5.repeat_index
           Day5.skip_index Day5.key_index Day5.phases Day5.key_reads].
      rewrite strlen_str_mem by assumption.
      rewrite size_calloc by apply size_nonneg.
      pose proof (size_nonneg key).
      repeat split; auto; try lia.
    + unfold day5_reads_inv, Day5.init.
      cbn [Day5.key_reads Day5.key_index Day5.char_index Day5.skip].
      split; [intros i j a b _ Hi _; destruct i; discriminate|].
      split; [constructor|]. split; [reflexivity | lia].
  - unfold Day5.init, size. cbn [Day5.char_index]. lia.
  - exists s. split; [exact Hrun|]. split; [exact Hinv|].
    split; [now apply ordered_snoc | now apply Hread].
Qed.

End Day5_reads.

(** C6 as stated fails: the index does not sit at the key length for one
    step before a wrap to zero.  With the key "2", [n = 1] and the plaintext
    "abcde" the key is read at index 1, the key length, at three flipped
    bytes in a row, and the index is still 1 when the loop ends.  For no key
    and plaintext is a read at the key length followed, in a later read or
    in the final key index, by the index 0. *)
Lemma day5_wrap_to_zero_counterexample :
  (exists s,
     Day5.crypt_run true (bytes_of "2") 1 (bytes_of "abcde") = Ok s /\
     size (bytes_of "2") = 1 /\
     Day5.key_reads s = [0; 1; 1; 1] /\
     Day5.key_index s = 1) /\
  ~ (exists (char_signed : bool) (key : list Z) (n : Z) (plaintext : list Z)
            (s : Day5.state) (i j : nat),
       wf_cstring key /\ 0 < size key /\
       wf_cstring plaintext /\ 0 < size plaintext <= INT_MAX /\
       Day5.crypt_run char_signed key n plaintext = Ok s /\
       (i < j)%nat /\
       nth_error (Day5.key_reads s ++ [Day5.key_index s]) i = Some (size key) /\
       nth_error (Day5.key_reads s ++ [Day5.key_index s]) j = Some 0).
Proof.
  split.
  - eexists. split; [vm_compute; reflexivity|]. repeat split.
  - intros (sg & key & n & pt & s & i & j & Hk & Hk0 & Hp & [Hp0 Hp1] & Hrun
            & Hij & Hi & Hj).
    destruct (day5_reads_run sg key n pt Hk Hp Hp1 Hp0)
      as (s' & Hrun' & _ & Hord & _).
    rewrite Hrun in Hrun'. injection Hrun' as <-.
    pose proof (Hord i j (size key) 0 Hij Hi Hj). lia.
Qed.

(** C6, amended (Variant C, the key index at the key length).  There are a
    non-empty key and a non-empty plaintext for which the loop reads
    [key[key_index]] with [key_index] equal to the key length (the
    terminating NUL): the test [key_index > strlen(key)] lets that index
    through.  The wrap to zero never happens: for every key the index read
    is at most the key length, and once a read is at the key length every
    later read and the final key index are at the key length too. *)
Theorem day5_key_index_stays_at_key_length :
  (forall char_signed : bool,
   exists (key : list Z) (n : Z) (plaintext : list Z) (s : Day5.state),
     wf_cstring key /\ 0 < size key /\
     wf_cstring plaintext /\ 0 < size plaintext /\
     Day5.crypt_run char_signed key n plaintext = Ok s /\
     In (size key) (Day5.key_reads s) /\
     Day5.key_index s = size key) /\
  (forall (char_signed : bool) (key : list Z) (n : Z) (plaintext : list Z),
   wf_cstring key -> wf_cstring plaintext ->
   0 < size plaintext <= INT_MAX ->
   exists s,
     Day5.crypt_run char_signed key n plaintext = Ok s /\
     Forall (fun r => 0 <= r <= size key) (Day5.key_reads s) /\
     0 <= Day5.key_index s <= size key /\
     forall (i j : nat) (b : Z),
       (i < j)%nat ->
       nth_error (Day5.key_reads s) i = Some (size key) ->
       nth_error (Day5.key_reads s ++ [Day5.key_index s]) j = Some b ->
       b = size key).
Proof.
  split.
  - intros char_signed.
    exists (bytes_of "2"), 1, (bytes_of "abc").
    destruct char_signed; eexists;
      (split; [unfold wf_cstring; vm_compute; repeat constructor; discriminate|]);
      (split; [reflexivity|]);
      (split; [unfold wf_cstring; vm_compute; repeat constructor; discriminate|]);
      (split; [reflexivity|]);
      (split; [vm_compute; reflexivity|]);
      (split; [vm_compute; auto | reflexivity]).
  - intros char_signed key n plaintext Hk Hp [Hp0 Hp1].
    destruct (day5_reads_run char_signed key n plaintext Hk Hp Hp1 Hp0)
      as (s & Hrun & (_ & _ & _ & _ & Hki & _ & _ & _ & Hrd) & Hord & _).
    exists s. split; [exact Hrun|]. split; [exact Hrd|]. split; [exact Hki|].
    intros i j b Hij Hi Hj.
    assert (Hi' : nth_error (Day5.key_reads s ++ [Day5.key_index s]) i
                  = Some (size key)).
    { rewrite nth_error_app1; [exact Hi|]. apply nth_error_Some. now rewrite Hi. }
    pose proof (Hord i j (size key) b Hij Hi' Hj) as Hge.
    assert (Hb : In b (Day5.key_reads s ++ [Day5.key_index s]))
      by (eapply nth_error_In; exact Hj).
    apply in_app_or in Hb. destruct Hb as [Hb | [<- | []]]; [|lia].
    rewrite Forall_forall in Hrd. specialize (Hrd b Hb). cbv beta in Hrd. lia.
Qed.

Lemma day5_key_index_stays_at_key_length_witness :
  exists s,
    Day5.crypt_run true (bytes_of "2") 1 (bytes_of "abcde") = Ok s /\
    Forall (fun r => 0 <= r <= 1) (Day5.key_reads s) /\
    0 <= Day5.key_index s <= 1 /\
    forall (i j : nat) (b : Z),
      (i < j)%nat ->
      nth_error (Day5.key_reads s) i = Some 1 ->
      nth_error (Day5.key_reads s ++ [Day5.key_index s]) j = Some b ->
      b = 1.
Proof.
  apply (proj2 day5_key_index_stays_at_key_length true (bytes_of "2") 1
           (bytes_of "abcde")).
  - unfold wf_cstring. vm_compute. repeat constructor; discriminate.
  - unfold wf_cstring. vm_compute. repeat constructor; discriminate.
  - vm_compute. split; [reflexivity | discriminate].
Defined.

(** C9 as stated fails for the empty key: Variant C on "Hello" and Variant A
    on "secret" return their output with an empty key, and every key read
    of the two runs is inside the string object (index 0, the terminator). *)
Lemma crypt_empty_key_counterexample :
  printed (Day5.crypt true [] 1 (bytes_of "Hello")) = Some "013131A173"%string /\
  printed (Day1.crypt true [] (bytes_of "secret")) = Some "736563726574"%string /\
  (exists s,
     Day5.crypt_run true [] 1 (bytes_of "Hello") = Ok s /\
     Forall (fun r => in_bounds (str_mem []) r = true) (Day5.key_reads s)) /\
  (exists s,
     Day1.crypt_run true [] (bytes_of "secret") = Ok s /\
     Forall (fun r => in_bounds (str_mem []) r = true) (Day1.key_reads s)).
Proof.
  split; [vm_compute; reflexivity|].
  split; [vm_compute; reflexivity|].
  split; eexists; (split; [vm_compute; reflexivity|]); repeat constructor.
Qed.

(** C9, amended (empty inputs).  With an empty plaintext the body of each of
    the three loops still runs once: it reads [plaintext[0]], which is the
    terminator, and faults on the write to index 0 of the zero-length
    ciphertext buffer; no variant returns an empty output (Variant B for
    positive [p] and [q]).  An empty key is different.  Variant A faults
    only from seven plaintext bytes on, where it reads [key[1]], past the
    terminator; on one to six bytes it returns the plaintext bytes
    unchanged.  Variant C reads nothing but [key[0]], the terminator, and
    its loop ends normally on every non-empty plaintext. *)
Theorem crypt_empty_plaintext_faults_empty_key_varies (char_signed : bool) :
  load (str_mem []) 0 = Ok 0 /\
  (forall key, Day1.crypt char_signed key [] = Fault (OobWrite 0 0)) /\
  (forall p q, 0 < p -> 0 < q -> p + q <= INT_MAX ->
     Day3.crypt char_signed p q [] = Fault (OobWrite 0 0)) /\
  (forall key n, Day5.crypt char_signed key n [] = Fault (OobWrite 0 0)) /\
  (forall plaintext, wf_cstring plaintext -> 7 <= size plaintext <= INT_MAX ->
     Day1.crypt char_signed [] plaintext = Fault (OobRead 1 1)) /\
  (forall plaintext, wf_cstring plaintext -> 0 < size plaintext <= 6 ->
     exists s,
       Day1.crypt_run char_signed [] plaintext = Ok s /\
       Day1.ciphertext s = plaintext) /\
  (forall n plaintext, wf_cstring plaintext -> 0 < size plaintext <= INT_MAX ->
     exists s,
       Day5.crypt_run char_signed [] n plaintext = Ok s /\
       Day5.key_reads s <> [] /\
       Forall (fun r => r = 0) (Day5.key_reads s)).
Proof.
  split; [reflexivity|].
  split; [apply day1_empty_plaintext|].
  split; [apply day3_empty_plaintext|].
  split; [apply day5_empty_plaintext|].
  split.
  { intros plaintext Hwf [H7 Hint]. now apply day1_empty_key. }
  split.
  { intros plaintext Hwf [H0 H6].
    unfold Day1.crypt_run, Day1.init.
    change (load (str_mem []) 0) with (Ok 0).
    rewrite load_ok by (rewrite size_str_mem; lia). cbn [bind].
    apply (day1_nokey_loop char_signed plaintext (Z.to_nat (size plaintext - 1)));
      try assumption; try lia.
    - rewrite strlen_str_mem by assumption. apply size_calloc. lia.
    - unfold size in *. lia. }
  intros n plaintext Hwf [H0 Hint].
  destruct (day5_reads_run char_signed [] n plaintext (Forall_nil _) Hwf Hint H0)
    as (s & Hrun & (_ & _ & _ & _ & _ & _ & _ & _ & Hrd) & _ & Hne).
  exists s. split; [exact Hrun|]. split; [exact Hne|].
  eapply Forall_impl; [|exact Hrd]. intros r Hr. cbv beta in Hr.
  change (size []) with 0 in Hr. lia.
Qed.

Lemma crypt_empty_plaintext_faults_empty_key_varies_witness :
  Day3.crypt true 2 1 [] = Fault (OobWrite 0 0) /\
  Day1.crypt true [] (bytes_of "abcdefg") = Fault (OobRead 1 1) /\
  (exists s,
     Day1.crypt_run true [] (bytes_of "secret") = Ok s /\
     Day1.ciphertext s = bytes_of "secret") /\
  (exists s,
     Day5.crypt_run true [] 1 (bytes_of "Hello") = Ok s /\
     Day5.key_reads s <> [] /\
     Forall (fun r => r = 0) (Day5.key_reads s)).
Proof.
  destruct (crypt_empty_plaintext_faults_empty_key_varies true)
    as (_ & _ & H3 & _ & H1 & H1s & H5).
  split; [|split; [|split]].
  - apply (H3 2 1); [lia | lia | vm_compute; discriminate].
  - apply (H1 (bytes_of "abcdefg")).
    + unfold wf_cstring. vm_compute. repeat constructor; discriminate.
    + vm_compute. split; discriminate.
  - apply (H1s (bytes_of "secret")).
    + unfold wf_cstring. vm_compute. repeat constructor; discriminate.
    + vm_compute. split; [reflexivity | discriminate].
  - apply (H5 1 (bytes_of "Hello")).
    + unfold wf_cstring. vm_compute. repeat constructor; discriminate.
    + vm_compute. split; [reflexivity | discriminate].
Defined.
